(** * The one-time-password operations of the login core

    A shallow embedding of [src/core/login/otp.js] (the Flow file) and of its
    TypeScript successor, which differ only in [repairOtp].  The file reads
    top-down like the source: the wire encodings the module imports, the login
    tree and stash it works on, the kit it hands to [applyKit], and then the
    exported functions one by one, followed by the properties proved of them.
    [extractHeaders] of the React Native client IO is embedded beside them.

    Asynchronous functions are state transformers over a [World] (the part of
    [ai.props] these functions can reach) that also say whether the promise
    resolved or rejected. *)

From Stdlib Require Import ZArith String Ascii.
From Stdlib.Strings Require Import Byte.
From stdpp Require Import base option list gmap strings.

Set Warnings "-register-all".

Local Open Scope string_scope.

(** ** RFC 4648 encodings ([import { base32, base64 } from 'rfc4648']) *)

Module Rfc4648.

Record Encoding := { chars : string; bits : nat }.

Definition base32Encoding : Encoding :=
  {| chars := "ABCDEFGHIJKLMNOPQRSTUVWXYZ234567"; bits := 5 |}.

Definition base64Encoding : Encoding :=
  {| chars := "ABCDEFGHIJKLMNOPQRSTUVWXYZabcdefghijklmnopqrstuvwxyz0123456789+/";
     bits := 6 |}.

(** The eight bits of a byte, most significant first. *)
Definition byteBits (b : byte) : list bool :=
  map (fun i => N.testbit (Byte.to_N b) (N.of_nat i)) [7; 6; 5; 4; 3; 2; 1; 0]%nat.

Definition dataBits (data : list byte) : list bool := flat_map byteBits data.

(** The value of the [i]-th group of [k] bits; bits past the end of the data
    count as zero, which is how the last, partial character is filled. *)
Definition group (bs : list bool) (k i : nat) : nat :=
  fold_left (fun acc j => 2 * acc + (if nth (i * k + j) bs false then 1 else 0))
            (seq 0 k) 0%nat.

(** Number of ['='] characters needed after [n] characters of [k] bits each
    to reach a byte boundary. *)
Definition padding (k n : nat) : nat :=
  default 0%nat (List.find (fun p => ((n + p) * k) mod 8 =? 0)%nat (seq 0 8)).

Definition stringify (e : Encoding) (data : list byte) : string :=
  let bs := dataBits data in
  let k := bits e in
  let n := ((List.length bs + k - 1) / k)%nat in
  let digit i := default "="%char (String.get (group bs k i) (chars e)) in
  string_of_list_ascii
    (map digit (seq 0 n) ++ repeat "="%char (padding k n)).

End Rfc4648.

Module base32.
Definition stringify : list byte -> string :=
  Rfc4648.stringify Rfc4648.base32Encoding.
End base32.

Module base64.
Definition stringify : list byte -> string :=
  Rfc4648.stringify Rfc4648.base64Encoding.
End base64.

(** ** Values on the wire and the remote login service *)

(** A JavaScript value as it is handed to [loginFetch] and serialised. *)
Inductive Json :=
| JNull
| JBool (b : bool)
| JNum (n : Z)
| JStr (s : string)
| JArr (items : list Json)
| JObj (fields : list (string * Json)).

Inductive Method := GET | POST | PUT | DELETE.

(** One request as the login service sees it.  [target] is the [loginId] a
    kit request is addressed by; the requests [loginFetch] is given directly
    carry their addressing inside [body]. *)
Record Request := {
  target : option string;
  method : Method;
  path : string;
  body : Json
}.

Inductive Reply :=
| Success (payload : Json)
| Failure (status : Z) (payload : Json).

(** What an asynchronous function can reject with. *)
Inductive Error :=
| TypeError                                  (* property read off [undefined] *)
| JsError (message : string)                 (* [throw new Error(message)] *)
| FetchError (status : Z) (payload : Json)   (* non-success reply *)
| CleanerError.                              (* a cleaner refused the reply *)

Inductive Result (A : Type) :=
| Ok (value : A)
| Err (e : Error).

Arguments Ok {A} value.
Arguments Err {A} e.

(** Modelled from the spec: the error taxonomy of its section 7.  The source
    has no class called ConfigurationError; the usage errors the spec files
    under that name (cancel-reset without 2FA, repair without a password) are
    the ones thrown as a plain [Error] with a message. *)
Definition isConfigurationError (e : Error) : bool :=
  match e with
  | JsError _ => true
  | _ => false
  end.

(** ** The recursive login structure *)

(** A node with its children, shared by the in-memory tree and the stash. *)
Inductive Tree (A : Type) : Type :=
| Node (data : A) (children : list (Tree A)).

Arguments Node {A} data children.

Definition data {A} (t : Tree A) : A :=
  match t with Node d _ => d end.

Definition children {A} (t : Tree A) : list (Tree A) :=
  match t with Node _ cs => cs end.

(** Modelled from the spec: [searchTree] (section 4.1; it lives in
    login.js, which is not among the sources).  Depth first, the node itself
    and then its children in order; the first node that satisfies the
    predicate wins. *)
Fixpoint searchTree {A} (predicate : Tree A -> bool) (node : Tree A)
  : option (Tree A) :=
  if predicate node then Some node
  else
    match node with
    | Node _ cs =>
        (fix scan (l : list (Tree A)) : option (Tree A) :=
           match l with
           | [] => None
           | child :: rest =>
               match searchTree predicate child with
               | Some found => Some found
               | None => scan rest
               end
           end) cs
    end.

(** The same search over a list of trees in order: the children of a node, or
    the stash trees a process holds. *)
Fixpoint searchForest {A} (predicate : Tree A -> bool) (l : list (Tree A))
  : option (Tree A) :=
  match l with
  | [] => None
  | child :: rest =>
      match searchTree predicate child with
      | Some found => Some found
      | None => searchForest predicate rest
      end
  end.

(** The nodes of a tree in the order the search visits them. *)
Fixpoint nodes {A} (node : Tree A) : list A :=
  match node with
  | Node d cs => d :: flat_map nodes cs
  end.

(** The shape of a tree: its nodes without what they hold. *)
Fixpoint skeleton {A} (node : Tree A) : Tree unit :=
  match node with
  | Node _ cs => Node tt (map skeleton cs)
  end.

(** Modelled from the spec: the merge of section 4.2 into the node located by
    the tree search.  [updateTree predicate f node] rewrites the data of the
    first node in pre-order that satisfies [predicate] and leaves every other
    node alone; [None] when no node matches. *)
Fixpoint updateTree {A} (predicate : Tree A -> bool) (f : A -> A)
  (node : Tree A) : option (Tree A) :=
  if predicate node then Some (Node (f (data node)) (children node))
  else
    match node with
    | Node d cs =>
        Node d <$>
          (fix scan (l : list (Tree A)) : option (list (Tree A)) :=
             match l with
             | [] => None
             | child :: rest =>
                 match updateTree predicate f child with
                 | Some child' => Some (child' :: rest)
                 | None => cons child <$> scan rest
                 end
             end) cs
    end.

(** The same rewrite over a list of trees in order. *)
Fixpoint updateForest {A} (predicate : Tree A -> bool) (f : A -> A)
  (l : list (Tree A)) : option (list (Tree A)) :=
  match l with
  | [] => None
  | child :: rest =>
      match updateTree predicate f child with
      | Some child' => Some (child' :: rest)
      | None => cons child <$> updateForest predicate f rest
      end
  end.

(** A predicate on nodes that looks at the fields of the node only, as the
    searches by [loginId] and [appId] do. *)
Definition onData {A} (q : A -> bool) : Tree A -> bool :=
  fun node => q (data node).

(** The node a merge leaves behind. *)
Definition mapData {A} (f : A -> A) (node : Tree A) : Tree A :=
  Node (f (data node)) (children node).

(** What the merge does, told through the search: it finds no node exactly
    when the search finds none, and otherwise the search finds the merged node
    where it found the node before. *)
Definition locatedTree {A} (q : A -> bool) (f : A -> A) (t : Tree A) : Prop :=
  match searchTree (onData q) t with
  | None => updateTree (onData q) f t = None
  | Some n =>
      exists t', updateTree (onData q) f t = Some t' /\
                 searchTree (onData q) t' = Some (mapData f n)
  end.

Definition locatedForest {A} (q : A -> bool) (f : A -> A) (l : list (Tree A))
  : Prop :=
  match searchForest (onData q) l with
  | None => updateForest (onData q) f l = None
  | Some n =>
      exists l', updateForest (onData q) f l = Some l' /\
                 searchForest (onData q) l' = Some (mapData f n)
  end.

(** One node of a pre-order listing rewritten by [f], the first one that
    satisfies [q], and nothing else. *)
Definition rewritesFirst {A} (q : A -> bool) (f : A -> A) (before after : list A)
  : Prop :=
  exists l d r,
    before = (l ++ d :: r)%list /\ after = (l ++ f d :: r)%list /\
    q d = true /\ Forall (fun x => q x = false) l.

(** Modelled from the spec: the fields of a [LoginTree] node (section 3; the
    type is declared in login-types.js, which is not among the sources).
    Dates are milliseconds since the epoch. *)
Module Login.
Record t := {
  loginId : string;
  appId : string;
  username : option string;
  userId : string;
  loginKey : list byte;
  passwordAuth : option (list byte);
  otpKey : option string;
  otpTimeout : option Z;
  otpResetDate : option Z;
  recovery2Key : option (list byte)
}.

(** The node with no reset pending and every other field as it was. *)
Definition clearOtpResetDate (d : t) : t :=
  {| loginId := loginId d; appId := appId d; username := username d;
     userId := userId d; loginKey := loginKey d; passwordAuth := passwordAuth d;
     otpKey := otpKey d; otpTimeout := otpTimeout d; otpResetDate := None;
     recovery2Key := recovery2Key d |}.
End Login.

(** Modelled from the spec: the fields of a [LoginStash] node (section 3;
    declared in login-stash.js, not among the sources).  It mirrors the tree
    node, holds ciphertext boxes in place of the plaintext secrets, and adds
    [lastLogin]. *)
Module Stash.
Record t := {
  loginId : string;
  appId : string;
  username : option string;
  userId : option string;
  lastLogin : option Z;
  otpKey : option string;
  otpTimeout : option Z;
  otpResetDate : option Z;
  boxes : gmap string Json
}.

(** The node with no reset pending and every other field as it was. *)
Definition clearOtpResetDate (d : t) : t :=
  {| loginId := loginId d; appId := appId d; username := username d;
     userId := userId d; lastLogin := lastLogin d; otpKey := otpKey d;
     otpTimeout := otpTimeout d; otpResetDate := None; boxes := boxes d |}.
End Stash.

Abbreviation LoginTree := (Tree Login.t).
Abbreviation LoginStash := (Tree Stash.t).

(** What a kit says about one optional field: the key is not in the partial
    object, it is there with [undefined], or it is there with a value. *)
Inductive Patch (T : Type) :=
| Keep
| Delete
| Assign (value : T).

Arguments Keep {T}.
Arguments Delete {T}.
Arguments Assign {T} value.

Definition patch {T} (p : Patch T) (old : option T) : option T :=
  match p with
  | Keep => old
  | Delete => None
  | Assign v => Some v
  end.

(** A field that is always there can only be kept or overwritten. *)
Definition overwrite {T} (p : option T) (old : T) : T := default old p.

(** The partial objects of a kit.  [loginId] and [appId] name the node and are
    not among the fields a kit rewrites. *)
Module LoginPatch.
Record t := {
  username : Patch string;
  userId : option string;
  loginKey : option (list byte);
  passwordAuth : Patch (list byte);
  otpKey : Patch string;
  otpTimeout : Patch Z;
  otpResetDate : Patch Z;
  recovery2Key : Patch (list byte)
}.

(** The object literal [{ otpKey, otpResetDate, otpTimeout }], where a
    component that is [Keep] stands for a key the literal does not have. *)
Definition otp (key : Patch string) (resetDate timeout : Patch Z) : t :=
  {| username := Keep; userId := None; loginKey := None; passwordAuth := Keep;
     otpKey := key; otpTimeout := timeout; otpResetDate := resetDate;
     recovery2Key := Keep |}.

(** Field-wise overwrite of a tree node. *)
Definition merge (p : t) (d : Login.t) : Login.t :=
  {| Login.loginId := Login.loginId d;
     Login.appId := Login.appId d;
     Login.username := patch (username p) (Login.username d);
     Login.userId := overwrite (userId p) (Login.userId d);
     Login.loginKey := overwrite (loginKey p) (Login.loginKey d);
     Login.passwordAuth := patch (passwordAuth p) (Login.passwordAuth d);
     Login.otpKey := patch (otpKey p) (Login.otpKey d);
     Login.otpTimeout := patch (otpTimeout p) (Login.otpTimeout d);
     Login.otpResetDate := patch (otpResetDate p) (Login.otpResetDate d);
     Login.recovery2Key := patch (recovery2Key p) (Login.recovery2Key d) |}.
End LoginPatch.

Module StashPatch.
Record t := {
  username : Patch string;
  userId : Patch string;
  lastLogin : Patch Z;
  otpKey : Patch string;
  otpTimeout : Patch Z;
  otpResetDate : Patch Z;
  boxes : gmap string (Patch Json)
}.

Definition otp (key : Patch string) (resetDate timeout : Patch Z) : t :=
  {| username := Keep; userId := Keep; lastLogin := Keep;
     otpKey := key; otpTimeout := timeout; otpResetDate := resetDate;
     boxes := ∅ |}.

(** Field-wise overwrite of a stash node; the boxes are merged name by
    name. *)
Definition merge (p : t) (d : Stash.t) : Stash.t :=
  {| Stash.loginId := Stash.loginId d;
     Stash.appId := Stash.appId d;
     Stash.username := patch (username p) (Stash.username d);
     Stash.userId := patch (userId p) (Stash.userId d);
     Stash.lastLogin := patch (lastLogin p) (Stash.lastLogin d);
     Stash.otpKey := patch (otpKey p) (Stash.otpKey d);
     Stash.otpTimeout := patch (otpTimeout p) (Stash.otpTimeout d);
     Stash.otpResetDate := patch (otpResetDate p) (Stash.otpResetDate d);
     Stash.boxes :=
       merge (fun change old =>
                match change with
                | Some c => patch c old
                | None => old
                end)
             (boxes p) (Stash.boxes d) |}.
End StashPatch.

(** [LoginKit]: the fields the source's object literals fill in, with the
    partial objects as patches. *)
Module Kit.
Record t := {
  serverMethod : option Method;
  serverPath : string;
  server : option Json;
  stash : StashPatch.t;
  login : LoginPatch.t;
  loginId : string
}.
End Kit.

(** The fields of [EdgeAccountOptions] that these functions read or set. *)
Module Opts.
Record t := {
  otp : option string;
  otpKey : option string;
  now : option Z
}.
End Opts.

(** ** The world of an [ApiInput] *)

(** One entry of [ai.props.state.accounts]: the node of the application that
    is logged in, and the whole tree it belongs to.  How the account reducer
    keeps the two in step is not in the sources; the functions below read
    [login] in [repairOtp] only and change [loginTree] only. *)
Record AccountState := {
  login : LoginTree;
  loginTree : LoginTree
}.

(** The state the functions of this file can read or change.
    - [accounts] is [ai.props.state.accounts], keyed by account id;
    - [stashes] are the stash trees of the process, one per username, each
      rewritten to disk in full whenever it changes, so that one component
      stands for the copy in memory and the one on disk;
    - [server] is the remote login service: its reply to the last request of
      a history of requests, and [sent] is the history so far;
    - [entropy] and [drawn] are the random source of [ai.props.io] and the
      number of bytes taken from it;
    - [clock] is the current time in seconds. *)
Record World := {
  accounts : gmap string AccountState;
  stashes : list LoginStash;
  server : list Request -> Reply;
  sent : list Request;
  entropy : nat -> byte;
  drawn : nat;
  clock : Z
}.

Definition withAccounts (a : gmap string AccountState) (w : World) : World :=
  {| accounts := a; stashes := stashes w; server := server w; sent := sent w;
     entropy := entropy w; drawn := drawn w; clock := clock w |}.

Definition withStashes (s : list LoginStash) (w : World) : World :=
  {| accounts := accounts w; stashes := s; server := server w; sent := sent w;
     entropy := entropy w; drawn := drawn w; clock := clock w |}.

Definition withSent (h : list Request) (w : World) : World :=
  {| accounts := accounts w; stashes := stashes w; server := server w; sent := h;
     entropy := entropy w; drawn := drawn w; clock := clock w |}.

Definition withDrawn (n : nat) (w : World) : World :=
  {| accounts := accounts w; stashes := stashes w; server := server w;
     sent := sent w; entropy := entropy w; drawn := n; clock := clock w |}.

(** An asynchronous function: from the world before the call to the outcome
    of its promise and the world after it.  A rejection keeps the effects
    that happened before it. *)
Definition M (A : Type) : Type := World -> Result A * World.

Definition ret {A} (a : A) : M A := fun w => (Ok a, w).

Definition throw {A} (e : Error) : M A := fun w => (Err e, w).

Definition bind {A B} (m : M A) (k : A -> M B) : M B :=
  fun w =>
    match m w with
    | (Ok a, w') => k a w'
    | (Err e, w') => (Err e, w')
    end.

Declare Scope async_scope.
Delimit Scope async_scope with async.
Notation "x <- m ;; k" := (bind m (fun x => k))
  (at level 100, m at next level, right associativity) : async_scope.
Notation "m ;; k" := (bind m (fun _ => k))
  (at level 100, right associativity) : async_scope.

Local Open Scope async_scope.

(** [ai.props.state.accounts[accountId]] read by destructuring: a missing
    entry makes the read throw. *)
Definition getAccount (accountId : string) : M AccountState :=
  fun w =>
    match accounts w !! accountId with
    | Some account => (Ok account, w)
    | None => (Err TypeError, w)
    end.

(** [ai.props.io.random(n)]: the next [n] bytes of the random source. *)
Definition random (n : nat) : M (list byte) :=
  fun w => (Ok (map (fun i => entropy w (drawn w + i)%nat) (seq 0 n)),
            withDrawn (drawn w + n) w).

(** Sending one request: it joins the history, and the service's reply
    resolves or rejects the promise. *)
Definition send (request : Request) : M Json :=
  fun w =>
    let history := (sent w ++ [request])%list in
    match server w history with
    | Success payload => (Ok payload, withSent history w)
    | Failure status payload => (Err (FetchError status payload), withSent history w)
    end.

(** Modelled from the spec: [loginFetch] (login-fetch.js is not among the
    sources), the JSON request and response of section 6; a non-success
    response rejects. *)
Definition loginFetch (method : Method) (path : string) (body : Json) : M Json :=
  send {| target := None; method := method; path := path; body := body |}.

Definition getWorld : M World := fun w => (Ok w, w).

Definition modify (f : World -> World) : M unit := fun w => (Ok tt, f w).

(** A synchronous call that may throw, inside an asynchronous function. *)
Definition sync {A} (r : Result A) : M A := fun w => (r, w).

(** ** getStashOtp's test on the [otp] option *)

Definition isDigit (c : ascii) : bool :=
  (48 <=? nat_of_ascii c)%nat && (nat_of_ascii c <=? 57)%nat.

(** [[0-9]+] matched at the very start of a string: the length of the
    longest match, zero when there is none. *)
Fixpoint digitRun (s : string) : nat :=
  match s with
  | String c rest => if isDigit c then S (digitRun rest) else 0%nat
  | EmptyString => 0%nat
  end.

(** [/[0-9]+/.test(s)]: the pattern has no anchors, so the match is tried at
    every offset of [s] in turn. *)
Fixpoint testDigits (s : string) : bool :=
  match s with
  | String _ rest => (0 <? digitRun s)%nat || testDigits rest
  | EmptyString => false
  end.

(** A numeric code as the specification means it: digits only, and at least
    one. *)
Fixpoint allDigits (s : string) : bool :=
  match s with
  | String c rest => isDigit c && allDigits rest
  | EmptyString => true
  end.

Definition isNumericCode (s : string) : bool :=
  (0 <? String.length s)%nat && allDigits s.

(** ** The response headers of the React Native client

    [extractHeaders] of the client IO module, with the methods of
    [String.prototype] it is written with.  A string is its sequence of code
    units, here the units below 256. *)

Module Js.

(** [s.indexOf(needle)]: the first offset at which [needle] occurs in [s],
    [-1] when it occurs nowhere. *)
Fixpoint indexOf (needle s : string) : Z :=
  if String.prefix needle s then 0%Z
  else
    match s with
    | EmptyString => (-1)%Z
    | String _ rest =>
        let found := indexOf needle rest in
        if (found <? 0)%Z then (-1)%Z else (found + 1)%Z
    end.

(** How [slice] reads an index: a negative one counts from the end, and both
    ends are clamped to the string. *)
Definition clampIndex (len i : Z) : Z :=
  if (i <? 0)%Z then Z.max (len + i) 0 else Z.min i len.

(** [s.slice(start, end)], and [s.slice(start)] when [end] is [None]. *)
Definition slice (s : string) (start : Z) (end_ : option Z) : string :=
  let len := Z.of_nat (String.length s) in
  let from := clampIndex len start in
  let to := clampIndex len (default len end_) in
  String.substring (Z.to_nat from) (Z.to_nat (to - from)) s.

(** [toLowerCase] on one code unit below 256: the letters [A] to [Z] and the
    capital letters of Latin-1 move up by 32. *)
Definition lowerUnit (c : ascii) : ascii :=
  let n := nat_of_ascii c in
  if ((65 <=? n) && (n <=? 90) || (192 <=? n) && (n <=? 214)
      || (216 <=? n) && (n <=? 222))%nat
  then ascii_of_nat (n + 32)
  else c.

Fixpoint toLowerCase (s : string) : string :=
  match s with
  | String c rest => String (lowerUnit c) (toLowerCase rest)
  | EmptyString => EmptyString
  end.

(** [s.split('\r\n')]: the pieces between the occurrences of a carriage
    return followed by a line feed, taken from the left; a string without one
    is its only piece. *)
Fixpoint splitCrlf (s : string) : list string :=
  match s with
  | EmptyString => [EmptyString]
  | String c rest =>
      match c, rest with
      | "013"%char, String "010"%char rest' => EmptyString :: splitCrlf rest'
      | _, _ =>
          match splitCrlf rest with
          | piece :: pieces => String c piece :: pieces
          | [] => [String c EmptyString]
          end
      end
  end.

(** [out[key] = value] on an object made by [{}]: every name becomes an own
    property but ["__proto__"], which is the accessor of [Object.prototype]
    and ignores a string. *)
Definition setProperty (key value : string) (out : gmap string string)
  : gmap string string :=
  if String.eqb key "__proto__" then out else <[key := value]> out.

End Js.

(** The body of the loop of [extractHeaders]: one line of the header text. *)
Definition extractHeader (out : gmap string string) (pair : string)
  : gmap string string :=
  let index := Js.indexOf ": " pair in
  if (index <? 0)%Z then out
  else
    Js.setProperty (Js.toLowerCase (Js.slice pair 0 (Some index)))
                   (Js.slice pair (index + 2) None) out.

(** Turns XMLHttpRequest headers into a more JSON-like structure. *)
Definition extractHeaders (headers : string) : gmap string string :=
  let pairs := Js.splitCrlf headers in
  fold_left extractHeader pairs ∅.

(** A carriage return and a line feed. *)
Definition crlf : string := String "013" (String "010" EmptyString).

(** The header text [getAllResponseHeaders] gives for a list of headers: one
    line per header, name, colon, space and value, each line ended by a
    carriage return and a line feed. *)
Definition headerLine (header : string * string) : string :=
  (fst header ++ ": " ++ snd header) ++ crlf.

Fixpoint headerText (headers : list (string * string)) : string :=
  match headers with
  | [] => EmptyString
  | header :: rest => headerLine header ++ headerText rest
  end.

(** What a reader of the parsed headers expects of that list: the value of
    the last header with the name, names compared in lower case. *)
Fixpoint lastHeader (name : string) (headers : list (string * string))
  : option string :=
  match headers with
  | [] => None
  | (n, v) :: rest =>
      match lastHeader name rest with
      | Some later => Some later
      | None => if String.eqb (Js.toLowerCase n) name then Some v else None
      end
  end.

(** A string in which a given sequence of units does not occur. *)
Definition lacks (needle s : string) : Prop := Js.indexOf needle s = (-1)%Z.

(** A header that its line can carry: no colon and space in the name, no
    line end in the name or the value. *)
Definition wellFormedHeader (header : string * string) : Prop :=
  lacks ": " (fst header) /\ lacks crlf (fst header) /\ lacks crlf (snd header).

(** What the loop of [extractHeaders] does with a header whose line is well
    formed. *)
Definition storeHeader (out : gmap string string) (header : string * string)
  : gmap string string :=
  Js.setProperty (Js.toLowerCase (fst header)) (snd header) out.

(** ** The stash as the mirror of the tree *)

(** A tree node and a stash node that hold the same 2FA settings. *)
Definition otpMirrors (l : Login.t) (s : Stash.t) : Prop :=
  Stash.otpKey s = Login.otpKey l /\
  Stash.otpTimeout s = Login.otpTimeout l /\
  Stash.otpResetDate s = Login.otpResetDate l.

(** ** Sample data

    A small account, its stash and a few login services, for the examples
    that run the functions below. *)

Module Sample.

Definition loginData (loginId appId : string) (passwordAuth : option (list byte))
  (otpKey : option string) (otpTimeout otpResetDate : option Z) : Login.t :=
  {| Login.loginId := loginId;
     Login.appId := appId;
     Login.username := Some "js test 0";
     Login.userId := "dXNlcklk";
     Login.loginKey := ["k"; "e"; "y"]%byte;
     Login.passwordAuth := passwordAuth;
     Login.otpKey := otpKey;
     Login.otpTimeout := otpTimeout;
     Login.otpResetDate := otpResetDate;
     Login.recovery2Key := None |}.

Definition stashData (loginId appId : string) (otpKey : option string)
  (otpTimeout otpResetDate : option Z) : Stash.t :=
  {| Stash.loginId := loginId;
     Stash.appId := appId;
     Stash.username := Some "js test 0";
     Stash.userId := Some "dXNlcklk";
     Stash.lastLogin := Some 1500000000000%Z;
     Stash.otpKey := otpKey;
     Stash.otpTimeout := otpTimeout;
     Stash.otpResetDate := otpResetDate;
     Stash.boxes := ∅ |}.

(** A root login with one application below it, and the stash that mirrors
    it. *)
Definition tree (passwordAuth : option (list byte)) (otpKey : option string)
  (otpTimeout otpResetDate : option Z) : LoginTree :=
  Node (loginData "root" "" passwordAuth otpKey otpTimeout otpResetDate)
       [Node (loginData "wallet" "co.airbitz.wallet" None None None None) []].

Definition stashTree (otpKey : option string) (otpTimeout otpResetDate : option Z)
  : LoginStash :=
  Node (stashData "root" "" otpKey otpTimeout otpResetDate)
       [Node (stashData "wallet" "co.airbitz.wallet" None None None) []].

Definition password : list byte := ["p"; "r"; "o"; "o"; "f"]%byte.

(** The account before 2FA, with 2FA and a reset pending, with a key but no
    timeout, and without a password. *)
Definition plain : LoginTree := tree (Some password) None None None.

Definition protected : LoginTree :=
  tree (Some password) (Some "JBSWY3DPEHPK3PXP") (Some 3600%Z)
       (Some 1600000000000%Z).

Definition keyOnly : LoginTree :=
  tree (Some password) (Some "JBSWY3DPEHPK3PXP") None None.

Definition noPassword : LoginTree := tree None None None None.

Definition plainStash : LoginStash := stashTree None None None.

Definition protectedStash : LoginStash :=
  stashTree (Some "JBSWY3DPEHPK3PXP") (Some 3600%Z) (Some 1600000000000%Z).

Definition accept : list Request -> Reply := fun _ => Success JNull.

Definition refuse : list Request -> Reply := fun _ => Failure 500 JNull.

(** A service that answers every request with a reset date. *)
Definition resetPending : list Request -> Reply :=
  fun _ => Success (JObj [("otpResetDate", JNum 1600000000000)]).

(** A process with one account, ["me"], logged in at its root. *)
Definition world (loginTree : LoginTree) (stashes : list LoginStash)
  (server : list Request -> Reply) : World :=
  {| accounts := {[ "me" := {| login := loginTree; loginTree := loginTree |} ]};
     stashes := stashes;
     server := server;
     sent := [];
     entropy := fun i => default "000"%byte (Byte.of_nat (i mod 256));
     drawn := 0;
     clock := 59 |}.

(** Stand-ins for what the file imports. *)
Definition hotp (key : string) (counter : Z) : string :=
  if (counter =? 1)%Z then "287082" else "000000".

Definition fixOtpKey (key : string) : string := key.

Definition hashUsername (username : string) : M (list byte) :=
  ret ["h"; "a"; "s"; "h"]%byte.

Definition wasChangeOtpPayload (otpKey : string) (otpTimeout : Z) : Json :=
  JObj [("otpKey", JStr otpKey); ("otpTimeout", JNum otpTimeout)].

Definition asOtpResetPayload (reply : Json) : option Z :=
  match reply with
  | JObj [(_, JNum date)] => Some date
  | _ => None
  end.

Definition getStashById (w : World) (loginId : string)
  : Result (LoginStash * LoginStash) :=
  match stashes w with
  | stashTree :: _ =>
      match
        searchTree (fun node => String.eqb (Stash.loginId (data node)) loginId)
                   stashTree
      with
      | Some stash => Ok (stashTree, stash)
      | None => Err (JsError "no stash")
      end
  | [] => Err (JsError "no stash")
  end.

Definition getStash (w : World) (username : string) : Result LoginStash :=
  match stashes w with
  | stashTree :: _ => Ok stashTree
  | [] => Err (JsError "no stash")
  end.

(** An [applyKit] that takes nothing but a DELETE on the OTP endpoint. *)
Definition onlyDelete (accountId : string) (loginTree : LoginTree) (kit : Kit.t)
  : M LoginTree :=
  match Kit.serverMethod kit with
  | Some DELETE =>
      if String.eqb (Kit.serverPath kit) "/v2/login/otp" then ret loginTree
      else throw (JsError "not the OTP endpoint")
  | _ => throw (JsError "not a DELETE")
  end.

(** A login engine that posts the request it is given and hands back an empty
    tree. *)
Definition serverLogin (stashTree stash : LoginStash) (opts : Opts.t)
  (request : Json) (unlock : Json -> M (list byte)) : M LoginTree :=
  reply <- loginFetch POST "/v2/login" request ;;
  loginKey <- unlock reply ;;
  ret (Node (loginData "root" "" None None None None) []).

End Sample.

(** ** The functions of otp.js *)

Section Otp.

(** What the file imports from parts of the repository that are not among the
    sources, or from collaborators outside it. *)

(** The counter-based code of a base32 secret that [totp] is built on. *)
Variable hotp : string -> Z -> string.

(** The length of a time step, in seconds. *)
Variable timeStep : Z.

(** [fixOtpKey] of util/crypto/hotp.js: the normal form of a secret. *)
Variable fixOtpKey : string -> string.

(** [hashUsername] of login-selectors.js. *)
Variable hashUsername : string -> M (list byte).

(** [uncleaner(asChangeOtpPayload)] applied to [{ otpKey, otpTimeout }]. *)
Variable wasChangeOtpPayload : string -> Z -> Json.

(** [asOtpResetPayload(reply).otpResetDate]; [None] when the cleaner
    throws. *)
Variable asOtpResetPayload : Json -> option Z.

(** The method of a kit that names none. *)
Variable defaultMethod : Method.

(** [getStashById] and [getStash] of login-selectors.js, reading the stashes
    of the world. *)
Variable getStashById : World -> string -> Result (LoginStash * LoginStash).
Variable getStash : World -> string -> Result LoginStash.

(** [serverLogin] of login.js: stash tree, stash node, options, request and
    the callback that unlocks the login key from the reply. *)
Variable serverLogin :
  LoginStash -> LoginStash -> Opts.t -> Json -> (Json -> M (list byte)) ->
  M LoginTree.

(** Modelled from the spec: [totp(key, timestamp?)] of util/crypto/hotp.js
    (section 4.4): the code of the time step the timestamp falls in, the
    timestamp being the clock's when none is given. *)
Definition totp (key : string) (timestamp : option Z) (w : World) : string :=
  hotp key (default (clock w) timestamp / timeStep)%Z.

(** Gets the current OTP for a logged-in account. *)
Definition getLoginOtp (login : LoginTree) (w : World) : option string :=
  match Login.otpKey (data login) with
  | Some otpKey => Some (totp otpKey None w)
  | None => None
  end.

(** Gets the current OTP from either the disk storage or login options. *)
Definition getStashOtp (stash : LoginStash) (opts : Opts.t) (w : World)
  : option string :=
  let otp := Opts.otp opts in
  let otpKey :=
    match Opts.otpKey opts with
    | Some key => Some key
    | None => Stash.otpKey (data stash)
    end in
  match otp with
  | Some otp =>
      if testDigits otp && (String.length otp <? 16)%nat then Some otp
      else Some (totp otp None w)
  | None =>
      match otpKey with
      | Some otpKey => Some (totp otpKey None w)
      | None => None
      end
  end.

(** The node a kit is for: [node => node.loginId === loginId]. *)
Definition loginHasId (loginId : string) : LoginTree -> bool :=
  onData (fun d => String.eqb (Login.loginId d) loginId).

Definition stashHasId (loginId : string) : LoginStash -> bool :=
  onData (fun d => String.eqb (Stash.loginId d) loginId).

(** The two merges of a kit; a kit whose node is not there merges into
    nothing. *)
Definition mergeStashes (kit : Kit.t) (trees : list LoginStash)
  : list LoginStash :=
  default trees
    (updateForest (stashHasId (Kit.loginId kit))
                  (StashPatch.merge (Kit.stash kit)) trees).

Definition mergeLogin (kit : Kit.t) (tree : LoginTree) : LoginTree :=
  default tree
    (updateTree (loginHasId (Kit.loginId kit))
                (LoginPatch.merge (Kit.login kit)) tree).

Definition setLoginTree (tree : LoginTree) (account : AccountState)
  : AccountState :=
  {| login := login account; loginTree := tree |}.

(** The request of a kit: method, path and payload, addressed by the
    [loginId] of the tree. *)
Definition kitRequest (loginTree : LoginTree) (kit : Kit.t) (payload : Json)
  : Request :=
  {| target := Some (Login.loginId (data loginTree));
     method := default defaultMethod (Kit.serverMethod kit);
     path := Kit.serverPath kit;
     body := payload |}.

(** Modelled from the spec: [applyKit(tree, kit)] of login.js (section 4.2).
    The tree the source passes is the object held by the account
    [accountId], so the merge of step 3 is seen through the account table.
    + If [kit.server] is present, send it, addressed by the tree's
      [loginId]; a non-success response rejects here.
    + Merge [kit.stash] into the stash node with the kit's [loginId] and
      persist the stash.
    + Merge [kit.login] into the matching node of the tree in memory.
    + Return the updated tree. *)
Definition applyKit (accountId : string) (loginTree : LoginTree) (kit : Kit.t)
  : M LoginTree :=
  match Kit.server kit with
  | Some payload => send (kitRequest loginTree kit payload) ;; ret tt
  | None => ret tt
  end ;;
  modify (fun w => withStashes (mergeStashes kit (stashes w)) w) ;;
  let updated := mergeLogin kit loginTree in
  modify (fun w =>
            withAccounts (alter (setLoginTree updated) accountId (accounts w)) w) ;;
  ret updated.

(** The local state a kit leaves behind once it is applied. *)
Definition committed (accountId : string) (loginTree : LoginTree) (kit : Kit.t)
  (w : World) : World :=
  withAccounts
    (alter (setLoginTree (mergeLogin kit loginTree)) accountId (accounts w))
    (withStashes (mergeStashes kit (stashes w)) w).

(** The [kit] constant of [enableOtp]. *)
Definition enableOtpKit (loginTree : LoginTree) (otpKey : string) (otpTimeout : Z)
  : Kit.t :=
  {| Kit.serverMethod := None;
     Kit.serverPath := "/v2/login/otp";
     Kit.server := Some (wasChangeOtpPayload otpKey otpTimeout);
     Kit.stash := StashPatch.otp (Assign otpKey) Delete (Assign otpTimeout);
     Kit.login := LoginPatch.otp (Assign otpKey) Delete (Assign otpTimeout);
     Kit.loginId := Login.loginId (data loginTree) |}.

Definition enableOtp (accountId : string) (otpTimeout : Z) : M unit :=
  account <- getAccount accountId ;;
  let loginTree := loginTree account in
  otpKey <-
    match Login.otpKey (data loginTree) with
    | Some existing => ret (fixOtpKey existing)
    | None => bytes <- random 10 ;; ret (base32.stringify bytes)
    end ;;
  let kit := enableOtpKit loginTree otpKey otpTimeout in
  applyKit accountId loginTree kit ;;
  ret tt.

(** The [kit] constant of [disableOtp]. *)
Definition disableOtpKit (loginTree : LoginTree) : Kit.t :=
  {| Kit.serverMethod := Some DELETE;
     Kit.serverPath := "/v2/login/otp";
     Kit.server := None;
     Kit.stash := StashPatch.otp Delete Delete Delete;
     Kit.login := LoginPatch.otp Delete Delete Delete;
     Kit.loginId := Login.loginId (data loginTree) |}.

(** [disableOtp], over the [applyKit] it imports.  Its kit carries no
    payload: what it asks of the server is in the kit it hands over, and
    shows there whatever [applyKit] does with it. *)
Definition disableOtpVia
  (applyKit : string -> LoginTree -> Kit.t -> M LoginTree)
  (accountId : string) : M unit :=
  account <- getAccount accountId ;;
  let loginTree := loginTree account in
  let kit := disableOtpKit loginTree in
  applyKit accountId loginTree kit ;;
  ret tt.

Definition disableOtp (accountId : string) : M unit :=
  disableOtpVia applyKit accountId.

(** The [kit] constant of [cancelOtpReset]. *)
Definition cancelOtpResetKit (loginTree : LoginTree) (otpTimeout : Z)
  (otpKey : string) : Kit.t :=
  {| Kit.serverMethod := None;
     Kit.serverPath := "/v2/login/otp";
     Kit.server := Some (wasChangeOtpPayload otpKey otpTimeout);
     Kit.stash := StashPatch.otp Keep Delete Keep;
     Kit.login := LoginPatch.otp Keep Delete Keep;
     Kit.loginId := Login.loginId (data loginTree) |}.

Definition cancelOtpReset (accountId : string) : M unit :=
  account <- getAccount accountId ;;
  let loginTree := loginTree account in
  match Login.otpTimeout (data loginTree), Login.otpKey (data loginTree) with
  | Some otpTimeout, Some otpKey =>
      let kit := cancelOtpResetKit loginTree otpTimeout otpKey in
      applyKit accountId loginTree kit ;;
      ret tt
  | _, _ => throw (JsError "Cannot cancel 2FA reset: 2FA is not enabled.")
  end.

(** Requests an OTP reset. *)
Definition resetOtp (username : string) (resetToken : string) : M Z :=
  hash <- hashUsername username ;;
  let request :=
    JObj [("userId", JStr (base64.stringify hash));
          ("otpResetAuth", JStr resetToken)] in
  reply <- loginFetch DELETE "/v2/login/otp" request ;;
  match asOtpResetPayload reply with
  | Some otpResetDate => ret otpResetDate
  | None => throw CleanerError
  end.

(** The request and the options [repairOtp] hands to [serverLogin], the same
    in both versions of the file. *)
Definition repairRequest (login : LoginTree) (passwordAuth : list byte)
  (otpKey : string) (w : World) : Json :=
  JObj [("userId", JStr (Login.userId (data login)));
        ("passwordAuth", JStr (base64.stringify passwordAuth));
        ("otp", JStr (totp otpKey None w))].

Definition repairOpts (stashTree : LoginStash) : Opts.t :=
  {| Opts.otp := None; Opts.otpKey := None;
     Opts.now := Stash.lastLogin (data stashTree) |}.

(** [repairOtp] as otp.js has it. *)
Definition repairOtp (accountId : string) (otpKey : string) : M unit :=
  w <- getWorld ;;
  match accounts w !! accountId with
  | None => ret tt
  | Some account =>
      let login := login account in
      found <- sync (getStashById w (Login.loginId (data login))) ;;
      let stashTree := fst found in
      let stash := snd found in
      match Login.passwordAuth (data login) with
      | None =>
          throw (JsError "Cannot repair OTP: There is no password on this account")
      | Some passwordAuth =>
          let request := repairRequest login passwordAuth otpKey w in
          let opts := repairOpts stashTree in
          serverLogin stashTree stash opts request
            (fun _ => ret (Login.loginKey (data login))) ;;
          ret tt
      end
  end.

(** [repairOtp] as the TypeScript file has it. *)
Definition repairOtpTs (accountId : string) (otpKey : string) : M unit :=
  w <- getWorld ;;
  match accounts w !! accountId with
  | None => ret tt
  | Some account =>
      let login := login account in
      let loginTree := loginTree account in
      match Login.username (data loginTree), Login.passwordAuth (data login) with
      | Some username, Some _ =>
          stashTree <- sync (getStash w username) ;;
          match
            searchTree
              (fun stash =>
                 String.eqb (Stash.appId (data stash)) (Login.appId (data login)))
              stashTree
          with
          | None => throw (JsError "Cannot sync: missing on-disk data")
          | Some stash =>
              match Login.passwordAuth (data login) with
              | None =>
                  throw (JsError "Cannot repair OTP: There is no password on this account")
              | Some passwordAuth =>
                  let request := repairRequest login passwordAuth otpKey w in
                  let opts := repairOpts stashTree in
                  serverLogin stashTree stash opts request
                    (fun _ => ret (Login.loginKey (data login))) ;;
                  ret tt
              end
          end
      | _, _ => throw (JsError "Cannot sync: missing username")
      end
  end.

(** ** Proof tools *)

(** Running an asynchronous function: open the plumbing of [M]. *)
Ltac run :=
  unfold bind, ret, throw, sync, modify, getWorld, getAccount; simpl.

(** The functions of the file are unfolded by name, one at a time. *)
Arguments applyKit : simpl never.
Arguments enableOtp : simpl never.
Arguments disableOtp : simpl never.
Arguments cancelOtpReset : simpl never.
Arguments resetOtp : simpl never.
Arguments repairOtp : simpl never.
Arguments repairOtpTs : simpl never.
Arguments committed : simpl never.

(** ** The tree search and the merge *)

Lemma Tree_ind' {A} (P : Tree A -> Prop) :
  (forall d cs, Forall P cs -> P (Node d cs)) -> forall t, P t.
Proof.
  intros step. fix IH 1. intros [d cs]. apply step.
  induction cs as [|c cs IHcs]; constructor; [apply IH | exact IHcs].
Qed.

Lemma searchTree_eq {A} (p : Tree A -> bool) d cs :
  searchTree p (Node d cs) =
  if p (Node d cs) then Some (Node d cs) else searchForest p cs.
Proof.
  simpl. destruct (p (Node d cs)); [reflexivity|].
  induction cs as [|c cs IH]; simpl; [reflexivity|].
  destruct (searchTree p c); [reflexivity | exact IH].
Qed.

Lemma updateTree_eq {A} (p : Tree A -> bool) f d cs :
  updateTree p f (Node d cs) =
  if p (Node d cs) then Some (Node (f d) cs) else Node d <$> updateForest p f cs.
Proof.
  simpl. destruct (p (Node d cs)); [reflexivity|]. f_equal.
  induction cs as [|c cs IH]; simpl; [reflexivity|].
  destruct (updateTree p f c); [reflexivity|]. now rewrite IH.
Qed.

(** The root is the first node the search visits. *)
Lemma searchTree_root {A} (p : Tree A -> bool) (t : Tree A) :
  p t = true -> searchTree p t = Some t.
Proof. intros Hp. destruct t as [d cs]. now rewrite searchTree_eq, Hp. Qed.

Lemma updateTree_root {A} (p : Tree A -> bool) f (t : Tree A) :
  p t = true -> updateTree p f t = Some (mapData f t).
Proof. intros Hp. destruct t as [d cs]. now rewrite updateTree_eq, Hp. Qed.

Section Located.

Context {A : Type} (q : A -> bool) (f : A -> A).
Hypothesis q_stable : forall d, q (f d) = q d.

Local Abbreviation p := (onData q).

Lemma locatedForest_of_trees l :
  Forall (locatedTree q f) l -> locatedForest q f l.
Proof.
  induction 1 as [|c rest Hc _ IH]; [reflexivity|].
  unfold locatedForest, locatedTree in *. simpl.
  destruct (searchTree p c) as [n|] eqn:Hsearch.
  - destruct Hc as (c' & -> & Hc'). exists (c' :: rest). simpl. now rewrite Hc'.
  - rewrite Hc. destruct (searchForest p rest) as [n|].
    + destruct IH as (rest' & -> & Hrest'). exists (c :: rest'). simpl.
      now rewrite Hsearch.
    + rewrite IH. reflexivity.
Qed.

Lemma updateTree_located t : locatedTree q f t.
Proof.
  induction t as [d cs IH] using Tree_ind'.
  apply locatedForest_of_trees in IH.
  unfold locatedTree, locatedForest in *.
  rewrite searchTree_eq, updateTree_eq.
  change (onData q (Node d cs)) with (q d).
  destruct (q d) eqn:Hq.
  - eexists; split; [reflexivity|]. apply searchTree_root.
    unfold onData. simpl. now rewrite q_stable.
  - destruct (searchForest p cs) as [n|].
    + destruct IH as (cs' & -> & Hcs'). eexists; split; [reflexivity|].
      rewrite searchTree_eq.
      change (onData q (Node d cs')) with (q d). now rewrite Hq.
    + rewrite IH. reflexivity.
Qed.

Lemma updateForest_located l : locatedForest q f l.
Proof. apply locatedForest_of_trees, Forall_forall. intros. apply updateTree_located. Qed.

(** Searching after the merge finds the merged node. *)
Lemma searchTree_merged t :
  searchTree p (default t (updateTree p f t)) = mapData f <$> searchTree p t.
Proof.
  pose proof (updateTree_located t) as H. unfold locatedTree in H.
  destruct (searchTree p t) as [n|] eqn:Hs.
  - destruct H as (t' & -> & Ht'). exact Ht'.
  - rewrite H. simpl. exact Hs.
Qed.

Lemma searchForest_merged l :
  searchForest p (default l (updateForest p f l)) = mapData f <$> searchForest p l.
Proof.
  pose proof (updateForest_located l) as H. unfold locatedForest in H.
  destruct (searchForest p l) as [n|] eqn:Hs.
  - destruct H as (l' & -> & Hl'). exact Hl'.
  - rewrite H. simpl. exact Hs.
Qed.

(** A merge that finds no node means no node satisfies the predicate. *)
Lemma updateForest_None_of_trees l :
  Forall (fun t => updateTree p f t = None -> Forall (fun x => q x = false) (nodes t)) l ->
  updateForest p f l = None -> Forall (fun x => q x = false) (flat_map nodes l).
Proof.
  induction 1 as [|c rest Hc _ IH]; simpl; [constructor|].
  destruct (updateTree p f c); [discriminate|].
  destruct (updateForest p f rest); [discriminate|]. intros _.
  apply Forall_app. split; [apply Hc | apply IH]; reflexivity.
Qed.

Lemma updateTree_None t :
  updateTree p f t = None -> Forall (fun x => q x = false) (nodes t).
Proof.
  induction t as [d cs IH] using Tree_ind'.
  rewrite updateTree_eq. change (onData q (Node d cs)) with (q d).
  destruct (q d) eqn:Hq; [discriminate|].
  destruct (updateForest p f cs) eqn:Hcs; [discriminate|]. intros _. simpl.
  constructor; [exact Hq|]. now apply updateForest_None_of_trees.
Qed.

(** A merge that finds a node rewrites that node and no other. *)
Lemma updateForest_nodes_of_trees l l' :
  Forall (fun t => forall t', updateTree p f t = Some t' ->
                              rewritesFirst q f (nodes t) (nodes t')) l ->
  updateForest p f l = Some l' ->
  rewritesFirst q f (flat_map nodes l) (flat_map nodes l').
Proof.
  intros Hl. revert l'.
  induction Hl as [|c rest Hc _ IH]; intros l'; simpl; [discriminate|].
  destruct (updateTree p f c) as [c'|] eqn:Hupd.
  - intros [= <-]. destruct (Hc c' eq_refl) as (b & d & a & Hc1 & Hc2 & Hq & Hb).
    exists b, d, (a ++ flat_map nodes rest)%list. simpl.
    rewrite Hc1, Hc2, <- !app_assoc. simpl. auto.
  - destruct (updateForest p f rest) as [rest'|]; [|discriminate].
    intros [= <-]. destruct (IH rest' eq_refl) as (b & d & a & Hr1 & Hr2 & Hq & Hb).
    exists (nodes c ++ b)%list, d, a. simpl. rewrite Hr1, Hr2, <- !app_assoc.
    repeat split; [exact Hq|]. apply Forall_app. split; [|exact Hb].
    now apply updateTree_None.
Qed.

Lemma updateTree_nodes t t' :
  updateTree p f t = Some t' -> rewritesFirst q f (nodes t) (nodes t').
Proof.
  revert t'. induction t as [d cs IH] using Tree_ind'. intros t'.
  rewrite updateTree_eq. change (onData q (Node d cs)) with (q d).
  destruct (q d) eqn:Hq.
  - intros [= <-]. exists [], d, (flat_map nodes cs). simpl. auto.
  - destruct (updateForest p f cs) as [cs'|] eqn:Hcs; [|discriminate].
    intros [= <-].
    destruct (updateForest_nodes_of_trees cs cs' IH Hcs)
      as (b & x & a & Hbefore & Hafter & Hx & Hb).
    exists (d :: b), x, a. simpl. rewrite Hbefore, Hafter. auto.
Qed.

Lemma updateForest_nodes l l' :
  updateForest p f l = Some l' ->
  rewritesFirst q f (flat_map nodes l) (flat_map nodes l').
Proof.
  apply updateForest_nodes_of_trees, Forall_forall. intros t _ t'.
  apply updateTree_nodes.
Qed.

End Located.

(** Two merges into the same node, one after the other. *)
Section Twice.

Context {A : Type} (q : A -> bool) (f g : A -> A).
Hypothesis f_stable : forall d, q (f d) = q d.
Hypothesis g_stable : forall d, q (g d) = q d.

Local Abbreviation p := (onData q).

(** Whether a merge finds its node does not depend on what it writes. *)
Lemma updateTree_found_again t t' :
  updateTree p f t = Some t' -> is_Some (updateTree p g t').
Proof.
  intros Hf.
  pose proof (updateTree_located q f f_stable t) as Hlocated.
  unfold locatedTree in Hlocated. fold p in Hlocated.
  destruct (searchTree p t) as [n|]; [|congruence].
  destruct Hlocated as (t'' & Hf' & Hsearch).
  assert (t'' = t') as -> by congruence.
  pose proof (updateTree_located q g g_stable t') as Hg.
  unfold locatedTree in Hg. fold p in Hg. rewrite Hsearch in Hg.
  destruct Hg as (u & -> & _). now exists u.
Qed.

Lemma updateTree_missing t :
  updateTree p f t = None -> updateTree p g t = None.
Proof.
  intros Hf.
  pose proof (updateTree_located q f f_stable t) as Hlocated.
  pose proof (updateTree_located q g g_stable t) as Hg.
  unfold locatedTree in *. fold p in Hlocated, Hg.
  destruct (searchTree p t) as [n|]; [|exact Hg].
  destruct Hlocated as (t' & Hf' & _). congruence.
Qed.

Lemma updateForest_missing l :
  updateForest p g l = None -> updateForest p f l = None.
Proof.
  intros Hg.
  pose proof (updateForest_located q f f_stable l) as Hlocated.
  pose proof (updateForest_located q g g_stable l) as Hlocated'.
  unfold locatedForest in *. fold p in Hlocated, Hlocated'.
  destruct (searchForest p l) as [n|]; [|exact Hlocated].
  destruct Hlocated' as (l' & Hl' & _). congruence.
Qed.

Lemma updateForest_twice_of_trees l :
  Forall (fun t => updateTree p g (default t (updateTree p f t))
                   = updateTree p (fun d => g (f d)) t) l ->
  updateForest p g (default l (updateForest p f l))
  = updateForest p (fun d => g (f d)) l.
Proof.
  induction 1 as [|c rest Hc _ IH]; [reflexivity|]. simpl.
  destruct (updateTree p f c) as [c'|] eqn:Hf; simpl in Hc.
  - simpl. destruct (updateTree_found_again c c' Hf) as [u Hu].
    rewrite Hu in *. now rewrite <- Hc.
  - rewrite <- Hc.
    destruct (updateForest p f rest) as [rest'|]; simpl in *;
      rewrite (updateTree_missing c Hf); now rewrite IH.
Qed.

Lemma updateTree_twice t :
  updateTree p g (default t (updateTree p f t))
  = updateTree p (fun d => g (f d)) t.
Proof.
  induction t as [d cs IH] using Tree_ind'.
  apply updateForest_twice_of_trees in IH.
  rewrite !updateTree_eq. change (onData q (Node d cs)) with (q d).
  destruct (q d) eqn:Hq.
  - cbn [from_option id]. rewrite updateTree_eq.
    change (onData q (Node (f d) cs)) with (q (f d)).
    now rewrite f_stable, Hq.
  - rewrite <- IH.
    destruct (updateForest p f cs) as [cs'|]; cbn [from_option id fmap option_fmap option_map];
      rewrite updateTree_eq;
      [change (onData q (Node d cs')) with (q d)
      |change (onData q (Node d cs)) with (q d)];
      now rewrite Hq.
Qed.

Lemma updateForest_twice l :
  updateForest p g (default l (updateForest p f l))
  = updateForest p (fun d => g (f d)) l.
Proof.
  apply updateForest_twice_of_trees, Forall_forall. intros t _.
  apply updateTree_twice.
Qed.

End Twice.

(** A merge that writes back what the node already holds changes nothing. *)
Section Fixed.

Context {A : Type} (q : A -> bool) (f : A -> A).
Hypothesis q_stable : forall d, q (f d) = q d.

Local Abbreviation p := (onData q).

Lemma searchTree_missing t : updateTree p f t = None -> searchTree p t = None.
Proof.
  intros Hupd. pose proof (updateTree_located q f q_stable t) as Hlocated.
  unfold locatedTree in Hlocated. fold p in Hlocated.
  destruct (searchTree p t) as [n|]; [|reflexivity].
  destruct Hlocated as (t' & Ht' & _). congruence.
Qed.

Lemma updateForest_fixed_of_trees l l' :
  Forall (fun t => forall t',
              (forall n, searchTree p t = Some n -> f (data n) = data n) ->
              updateTree p f t = Some t' -> t' = t) l ->
  (forall n, searchForest p l = Some n -> f (data n) = data n) ->
  updateForest p f l = Some l' -> l' = l.
Proof.
  intros Hl. revert l'.
  induction Hl as [|c rest Hc _ IH]; intros l' Hfixed; simpl in *; [discriminate|].
  destruct (updateTree p f c) as [c'|] eqn:Hupd.
  - intros [= <-]. f_equal. apply Hc; [|reflexivity].
    intros n Hn. apply Hfixed. now rewrite Hn.
  - destruct (updateForest p f rest) as [rest'|]; [|discriminate].
    intros [= <-]. f_equal. apply IH; [|reflexivity].
    intros n Hn. apply Hfixed. now rewrite (searchTree_missing c Hupd).
Qed.

Lemma updateTree_fixed t t' :
  (forall n, searchTree p t = Some n -> f (data n) = data n) ->
  updateTree p f t = Some t' -> t' = t.
Proof.
  revert t'. induction t as [d cs IH] using Tree_ind'. intros t'.
  rewrite searchTree_eq, updateTree_eq. change (onData q (Node d cs)) with (q d).
  destruct (q d).
  - intros Hfixed [= <-]. f_equal. exact (Hfixed _ eq_refl).
  - intros Hfixed. destruct (updateForest p f cs) as [cs'|] eqn:Hcs; [|discriminate].
    intros [= <-]. f_equal. now apply (updateForest_fixed_of_trees cs cs' IH).
Qed.

Lemma updateForest_fixed l l' :
  (forall n, searchForest p l = Some n -> f (data n) = data n) ->
  updateForest p f l = Some l' -> l' = l.
Proof.
  apply updateForest_fixed_of_trees, Forall_forall. intros t _ t'.
  apply updateTree_fixed.
Qed.

End Fixed.

(** The merge depends on what the patch does to a node, not on how the patch
    is written. *)
Lemma updateForest_ext_of_trees {A} (p : Tree A -> bool) (f g : A -> A) l :
  Forall (fun t => updateTree p f t = updateTree p g t) l ->
  updateForest p f l = updateForest p g l.
Proof.
  induction 1 as [|c rest Hc _ IH]; [reflexivity|]. simpl.
  rewrite Hc, IH. reflexivity.
Qed.

Lemma updateTree_ext {A} (p : Tree A -> bool) (f g : A -> A) t :
  (forall d, f d = g d) -> updateTree p f t = updateTree p g t.
Proof.
  intros Hfg. induction t as [d cs IH] using Tree_ind'.
  rewrite !updateTree_eq, Hfg.
  now rewrite (updateForest_ext_of_trees p f g cs IH).
Qed.

Lemma updateForest_ext {A} (p : Tree A -> bool) (f g : A -> A) l :
  (forall d, f d = g d) -> updateForest p f l = updateForest p g l.
Proof.
  intros Hfg. apply updateForest_ext_of_trees, Forall_forall. intros t _.
  now apply updateTree_ext.
Qed.

(** The merge keeps the shape of the trees. *)
Lemma updateForest_skeleton_of_trees {A} (p : Tree A -> bool) (f : A -> A) l l' :
  Forall (fun t => forall t', updateTree p f t = Some t' ->
                              skeleton t' = skeleton t) l ->
  updateForest p f l = Some l' -> map skeleton l' = map skeleton l.
Proof.
  intros Hl. revert l'.
  induction Hl as [|c rest Hc _ IH]; intros l'; simpl; [discriminate|].
  destruct (updateTree p f c) as [c'|].
  - intros [= <-]. simpl. now rewrite (Hc c' eq_refl).
  - destruct (updateForest p f rest) as [rest'|]; [|discriminate].
    intros [= <-]. simpl. now rewrite (IH rest' eq_refl).
Qed.

Lemma updateTree_skeleton {A} (p : Tree A -> bool) (f : A -> A) t t' :
  updateTree p f t = Some t' -> skeleton t' = skeleton t.
Proof.
  revert t'. induction t as [d cs IH] using Tree_ind'. intros t'.
  rewrite updateTree_eq. destruct (p (Node d cs)).
  - now intros [= <-].
  - destruct (updateForest p f cs) as [cs'|] eqn:Hcs; [|discriminate].
    intros [= <-]. simpl.
    now rewrite (updateForest_skeleton_of_trees p f cs cs' IH Hcs).
Qed.

Lemma updateForest_skeleton {A} (p : Tree A -> bool) (f : A -> A) l l' :
  updateForest p f l = Some l' -> map skeleton l' = map skeleton l.
Proof.
  apply updateForest_skeleton_of_trees, Forall_forall. intros t _ t'.
  apply updateTree_skeleton.
Qed.

(** ** applyKit *)

(** The whole run of [applyKit], by the cases of its server step. *)
Lemma applyKit_run accountId loginTree kit w :
  applyKit accountId loginTree kit w =
  match Kit.server kit with
  | None => (Ok (mergeLogin kit loginTree), committed accountId loginTree kit w)
  | Some payload =>
      let history := (sent w ++ [kitRequest loginTree kit payload])%list in
      match server w history with
      | Success _ =>
          (Ok (mergeLogin kit loginTree),
           committed accountId loginTree kit (withSent history w))
      | Failure status reply =>
          (Err (FetchError status reply), withSent history w)
      end
  end.
Proof.
  unfold applyKit, send. run.
  destruct (Kit.server kit) as [payload|]; [|reflexivity].
  destruct (server w _); reflexivity.
Qed.

(** C1.  [applyKit] is all or nothing.  When the login service answers the
    kit's request with a non-success response, the call rejects with that
    response and the stashes and the account table (hence the tree in memory)
    are what they were; whatever makes [applyKit] reject, the stashes and the
    account table are untouched; and if either of them has changed, the call
    has resolved and the request of the kit, if it has one, was answered with
    success. *)
Theorem applyKit_all_or_nothing accountId loginTree kit w :
  (forall payload status reply,
      Kit.server kit = Some payload ->
      server w (sent w ++ [kitRequest loginTree kit payload])%list
        = Failure status reply ->
      exists w',
        applyKit accountId loginTree kit w = (Err (FetchError status reply), w') /\
        stashes w' = stashes w /\ accounts w' = accounts w) /\
  (forall e w',
      applyKit accountId loginTree kit w = (Err e, w') ->
      stashes w' = stashes w /\ accounts w' = accounts w) /\
  (forall outcome w',
      applyKit accountId loginTree kit w = (outcome, w') ->
      stashes w' <> stashes w \/ accounts w' <> accounts w ->
      (exists tree, outcome = Ok tree) /\
      (forall payload,
          Kit.server kit = Some payload ->
          exists reply,
            server w (sent w ++ [kitRequest loginTree kit payload])%list
            = Success reply)).
Proof.
  split; [|split].
  - intros payload status reply Hserver Hreply.
    rewrite applyKit_run, Hserver. simpl. rewrite Hreply.
    eexists. split; [reflexivity|]. split; reflexivity.
  - intros e w'. rewrite applyKit_run.
    destruct (Kit.server kit) as [payload|]; [|discriminate]. simpl.
    destruct (server w _); [discriminate|].
    intros [= _ <-]. split; reflexivity.
  - intros outcome w'. rewrite applyKit_run.
    destruct (Kit.server kit) as [payload|]; simpl.
    + destruct (server w _) as [reply|status reply] eqn:Hreply;
        intros [= <- <-] Hchanged.
      * split; [now eexists|]. intros ? [= <-]. now exists reply.
      * destruct Hchanged as [Hchanged | Hchanged]; now destruct Hchanged.
    + intros [= <- <-] _. split; [now eexists | discriminate].
Qed.

(** ** totp and the two getters *)

(** C9. [totp] is deterministic: with the key and the timestamp fixed, the
    code is the same whatever the rest of the world is (the clock, the random
    source, the server); and [getLoginOtp] is [totp] over the tree's [otpKey]
    at the clock's time when the tree has one and absent otherwise, so that
    it is determined by the tree's key and the clock. *)
Theorem totp_deterministic :
  (forall key t w1 w2, totp key (Some t) w1 = totp key (Some t) w2) /\
  (forall login w,
      getLoginOtp login w =
      match Login.otpKey (data login) with
      | Some otpKey => Some (totp otpKey (Some (clock w)) w)
      | None => None
      end) /\
  (forall login1 login2 w1 w2,
      Login.otpKey (data login1) = Login.otpKey (data login2) ->
      clock w1 = clock w2 ->
      getLoginOtp login1 w1 = getLoginOtp login2 w2).
Proof.
  split; [|split].
  - reflexivity.
  - intros login w. unfold getLoginOtp. now destruct (Login.otpKey (data login)).
  - intros login1 login2 w1 w2 Hkey Hclock. unfold getLoginOtp, totp. simpl.
    rewrite Hkey, Hclock. reflexivity.
Qed.

(** Within one time step the code does not change. *)
Lemma totp_same_step key t1 t2 w1 w2 :
  (t1 / timeStep = t2 / timeStep)%Z ->
  totp key (Some t1) w1 = totp key (Some t2) w2.
Proof. unfold totp. simpl. now intros ->. Qed.

(** [/[0-9]+/.test] asks for a digit somewhere, not for digits only. *)
Lemma testDigits_exists s :
  testDigits s = existsb isDigit (list_ascii_of_string s).
Proof.
  induction s as [|c rest IH]; [reflexivity|].
  simpl. rewrite IH. now destruct (isDigit c).
Qed.

Lemma isNumericCode_testDigits s : isNumericCode s = true -> testDigits s = true.
Proof.
  unfold isNumericCode. destruct s as [|c rest]; [discriminate|].
  simpl. now destruct (isDigit c).
Qed.

(** The part of the resolution order that holds: a short numeric code is
    returned as it is, and without [opts.otp] the key of the options comes
    before the key of the stash. *)
Lemma getStashOtp_numeric stash otp otpKey now w :
  isNumericCode otp = true ->
  (String.length otp < 16)%nat ->
  getStashOtp stash {| Opts.otp := Some otp; Opts.otpKey := otpKey; Opts.now := now |} w
  = Some otp.
Proof.
  intros Hnum Hlen. unfold getStashOtp. simpl.
  rewrite (isNumericCode_testDigits _ Hnum).
  now apply Nat.ltb_lt in Hlen as ->.
Qed.

Lemma getStashOtp_keys stash otpKey now w :
  getStashOtp stash {| Opts.otp := None; Opts.otpKey := otpKey; Opts.now := now |} w
  = match otpKey, Stash.otpKey (data stash) with
    | Some key, _ => Some (totp key None w)
    | None, Some key => Some (totp key None w)
    | None, None => None
    end.
Proof.
  unfold getStashOtp. simpl. destruct otpKey; [reflexivity|].
  now destruct (Stash.otpKey (data stash)).
Qed.

(** C2, where the code departs from the claim.  ["JBSWY3DP"] is a base32
    secret, not a numeric code, yet it holds a digit and is shorter than 16
    characters: [getStashOtp] returns it as it is and never applies [totp]
    to it. *)
Theorem getStashOtp_short_secret_as_code stash otpKey now w :
  isNumericCode "JBSWY3DP" = false /\
  getStashOtp stash
    {| Opts.otp := Some "JBSWY3DP"; Opts.otpKey := otpKey; Opts.now := now |} w
  = Some "JBSWY3DP".
Proof. split; reflexivity. Qed.

(** ** The kits of the three operations on an account *)

(** A kit made for the root of a tree merges into the root. *)
Lemma mergeLogin_root kit tree :
  Kit.loginId kit = Login.loginId (data tree) ->
  mergeLogin kit tree = mapData (LoginPatch.merge (Kit.login kit)) tree.
Proof.
  intros Hid. unfold mergeLogin. rewrite updateTree_root; [reflexivity|].
  unfold loginHasId, onData. rewrite Hid. apply String.eqb_refl.
Qed.

Lemma committed_account accountId tree kit w account :
  accounts w !! accountId = Some account ->
  accounts (committed accountId tree kit w) !! accountId
  = Some (setLoginTree (mergeLogin kit tree) account).
Proof.
  intros Hacc. unfold committed. simpl. now rewrite lookup_alter_eq, Hacc.
Qed.

Lemma committed_other accountId tree kit w other :
  other <> accountId ->
  accounts (committed accountId tree kit w) !! other = accounts w !! other.
Proof. intros Hne. unfold committed. simpl. now rewrite lookup_alter_ne. Qed.

Lemma disableOtp_run accountId w account :
  accounts w !! accountId = Some account ->
  disableOtp accountId w
  = (Ok tt, committed accountId (loginTree account)
                      (disableOtpKit (loginTree account)) w).
Proof.
  intros Hacc. unfold disableOtp, disableOtpVia. run. rewrite Hacc. reflexivity.
Qed.

Lemma cancelOtpReset_run accountId w account :
  accounts w !! accountId = Some account ->
  cancelOtpReset accountId w =
  match Login.otpTimeout (data (loginTree account)),
        Login.otpKey (data (loginTree account)) with
  | Some otpTimeout, Some otpKey =>
      (applyKit accountId (loginTree account)
         (cancelOtpResetKit (loginTree account) otpTimeout otpKey) ;; ret tt) w
  | _, _ => (Err (JsError "Cannot cancel 2FA reset: 2FA is not enabled."), w)
  end.
Proof.
  intros Hacc. unfold cancelOtpReset. run. rewrite Hacc.
  destruct (Login.otpTimeout (data (loginTree account))),
           (Login.otpKey (data (loginTree account))); reflexivity.
Qed.

(** C3, as the code has it.  [cancelOtpReset] fails with a ConfigurationError
    exactly when the account's login tree lacks [otpTimeout] or lacks
    [otpKey], one of them being enough; and right after a [disableOtp] that
    went through, [cancelOtpReset] on the same account raises that error and
    changes nothing. *)
Theorem cancelOtpReset_needs_otp accountId w :
  ((exists e, fst (cancelOtpReset accountId w) = Err e /\
              isConfigurationError e = true) <->
   (exists account,
       accounts w !! accountId = Some account /\
       (Login.otpTimeout (data (loginTree account)) = None \/
        Login.otpKey (data (loginTree account)) = None))) /\
  (forall w1,
      disableOtp accountId w = (Ok tt, w1) ->
      cancelOtpReset accountId w1
      = (Err (JsError "Cannot cancel 2FA reset: 2FA is not enabled."), w1)).
Proof.
  split; [split|].
  - intros (e & Hfail & Hconf).
    destruct (accounts w !! accountId) as [account|] eqn:Hacc.
    + exists account. split; [reflexivity|].
      rewrite (cancelOtpReset_run _ _ _ Hacc) in Hfail.
      destruct (Login.otpTimeout (data (loginTree account))) as [otpTimeout|];
        [|now left].
      destruct (Login.otpKey (data (loginTree account))) as [otpKey|];
        [|now right].
      exfalso. revert Hfail. unfold bind. rewrite applyKit_run. simpl.
      destruct (server w _); simpl; intros [= <-]; discriminate.
    + exfalso. revert Hfail. unfold cancelOtpReset. run. rewrite Hacc.
      simpl. intros [= <-]. discriminate.
  - intros (account & Hacc & Hmissing).
    exists (JsError "Cannot cancel 2FA reset: 2FA is not enabled.").
    split; [|reflexivity]. rewrite (cancelOtpReset_run _ _ _ Hacc).
    destruct Hmissing as [-> | ->]; [reflexivity|].
    now destruct (Login.otpTimeout (data (loginTree account))).
  - intros w1.
    destruct (accounts w !! accountId) as [account|] eqn:Hacc.
    + rewrite (disableOtp_run _ _ _ Hacc). intros [= <-].
      erewrite cancelOtpReset_run by (apply committed_account; exact Hacc).
      simpl. rewrite mergeLogin_root by reflexivity. reflexivity.
    + unfold disableOtp, disableOtpVia. run. rewrite Hacc. discriminate.
Qed.

(** ** repairOtp *)

(** C10.  For an account id that is not in the account table, [repairOtp]
    resolves, in both versions of the file, and leaves the world as it was:
    no request is added to the history and neither the stashes nor the
    account table change. *)
Theorem repairOtp_unknown_account accountId otpKey w :
  accounts w !! accountId = None ->
  (repairOtp accountId otpKey w = (Ok tt, w) /\
   repairOtpTs accountId otpKey w = (Ok tt, w)) /\
  (forall w',
      snd (repairOtp accountId otpKey w) = w' \/
      snd (repairOtpTs accountId otpKey w) = w' ->
      sent w' = sent w /\ stashes w' = stashes w /\ accounts w' = accounts w).
Proof.
  intros Hacc.
  assert (Hrun : repairOtp accountId otpKey w = (Ok tt, w) /\
                 repairOtpTs accountId otpKey w = (Ok tt, w)).
  { unfold repairOtp, repairOtpTs. run. now rewrite Hacc. }
  split; [exact Hrun|].
  destruct Hrun as [-> ->]. simpl. intros w' [<- | <-]; auto.
Qed.

(** C4.  For an account that is in the table: without a password
    ([passwordAuth] absent) [repairOtp] rejects and changes nothing, with the
    ConfigurationError of the missing password once the stash has been found
    (otp.js looks the stash up first) and with a ConfigurationError outright
    in the TypeScript file; with a password, and the stash located, it calls
    [serverLogin] with a request that carries the account's [userId], the
    base64 of its [passwordAuth] and [totp] of the candidate key, and with
    options whose [now] is the [lastLogin] of the stash tree. *)
Theorem repairOtp_password_and_code accountId otpKey w account :
  accounts w !! accountId = Some account ->
  (Login.passwordAuth (data (login account)) = None ->
   (exists e,
       repairOtp accountId otpKey w = (Err e, w) /\
       (forall found,
           getStashById w (Login.loginId (data (login account))) = Ok found ->
           e = JsError "Cannot repair OTP: There is no password on this account" /\
           isConfigurationError e = true)) /\
   (exists e,
       repairOtpTs accountId otpKey w = (Err e, w) /\
       isConfigurationError e = true)) /\
  (forall passwordAuth,
      Login.passwordAuth (data (login account)) = Some passwordAuth ->
      let request :=
        JObj [("userId", JStr (Login.userId (data (login account))));
              ("passwordAuth", JStr (base64.stringify passwordAuth));
              ("otp", JStr (totp otpKey None w))] in
      let unlock := fun _ : Json => ret (Login.loginKey (data (login account))) in
      (forall stashTree stash,
          getStashById w (Login.loginId (data (login account)))
            = Ok (stashTree, stash) ->
          exists opts,
            Opts.now opts = Stash.lastLogin (data stashTree) /\
            repairOtp accountId otpKey w
            = (serverLogin stashTree stash opts request unlock ;; ret tt) w) /\
      (forall username stashTree stash,
          Login.username (data (loginTree account)) = Some username ->
          getStash w username = Ok stashTree ->
          searchTree
            (fun node =>
               String.eqb (Stash.appId (data node))
                          (Login.appId (data (login account))))
            stashTree = Some stash ->
          exists opts,
            Opts.now opts = Stash.lastLogin (data stashTree) /\
            repairOtpTs accountId otpKey w
            = (serverLogin stashTree stash opts request unlock ;; ret tt) w)).
Proof.
  intros Hacc. split.
  - intros Hnone. split.
    + unfold repairOtp. run. rewrite Hacc, Hnone.
      destruct (getStashById w _) as [found|e].
      * eexists. split; [reflexivity|]. intros _ _. split; reflexivity.
      * exists e. split; [reflexivity|]. discriminate.
    + exists (JsError "Cannot sync: missing username").
      split; [|reflexivity]. unfold repairOtpTs. run. rewrite Hacc, Hnone.
      now destruct (Login.username (data (loginTree account))).
  - intros passwordAuth Hsome request unlock. split.
    + intros stashTree stash Hstash. exists (repairOpts stashTree).
      split; [reflexivity|]. unfold repairOtp. run.
      rewrite Hacc, Hstash, Hsome. reflexivity.
    + intros username stashTree stash Huser Hstash Hfound.
      exists (repairOpts stashTree). split; [reflexivity|].
      unfold repairOtpTs. run. rewrite Hacc, Huser, Hsome, Hstash. simpl.
      rewrite Hfound. reflexivity.
Qed.

(** ** resetOtp *)

(** C8.  [resetOtp] hashes the username and sends one request: a DELETE to
    ["/v2/login/otp"] whose body holds the base64 of the hash as [userId] and
    the reset token as [otpResetAuth], and nothing else; the username reaches
    the request through its hash only, so two usernames with the same hash
    give the same run.  When the service answers with success, the call
    resolves to the reset date of the reply. *)
Theorem resetOtp_request username resetToken w hash w1 :
  hashUsername username w = (Ok hash, w1) ->
  let request :=
    {| target := None;
       method := DELETE;
       path := "/v2/login/otp";
       body := JObj [("userId", JStr (base64.stringify hash));
                     ("otpResetAuth", JStr resetToken)] |} in
  sent (snd (resetOtp username resetToken w)) = (sent w1 ++ [request])%list /\
  (forall reply otpResetDate,
      server w1 (sent w1 ++ [request])%list = Success reply ->
      asOtpResetPayload reply = Some otpResetDate ->
      fst (resetOtp username resetToken w) = Ok otpResetDate) /\
  (forall other,
      hashUsername other w = (Ok hash, w1) ->
      resetOtp other resetToken w = resetOtp username resetToken w).
Proof.
  intros Hhash request. unfold resetOtp, loginFetch, send. run.
  rewrite Hhash. fold request. split; [|split].
  - destruct (server w1 _) as [reply|status reply]; [|reflexivity].
    now destruct (asOtpResetPayload reply).
  - intros reply otpResetDate -> Hdate. simpl. now rewrite Hdate.
  - intros other ->. reflexivity.
Qed.

(** ** enableOtp, disableOtp and cancelOtpReset on the stash and the tree *)

(** What the three patches do to a node. *)
Lemma merge_enable_login otpKey otpTimeout d :
  let d' := LoginPatch.merge (LoginPatch.otp (Assign otpKey) Delete (Assign otpTimeout)) d in
  Login.otpKey d' = Some otpKey /\ Login.otpTimeout d' = Some otpTimeout /\
  Login.otpResetDate d' = None.
Proof. repeat split. Qed.

Lemma merge_enable_stash otpKey otpTimeout d :
  let d' := StashPatch.merge (StashPatch.otp (Assign otpKey) Delete (Assign otpTimeout)) d in
  Stash.otpKey d' = Some otpKey /\ Stash.otpTimeout d' = Some otpTimeout /\
  Stash.otpResetDate d' = None.
Proof. repeat split. Qed.

Lemma merge_disable_login d :
  let d' := LoginPatch.merge (LoginPatch.otp Delete Delete Delete) d in
  Login.otpKey d' = None /\ Login.otpTimeout d' = None /\
  Login.otpResetDate d' = None.
Proof. repeat split. Qed.

Lemma merge_disable_stash d :
  let d' := StashPatch.merge (StashPatch.otp Delete Delete Delete) d in
  Stash.otpKey d' = None /\ Stash.otpTimeout d' = None /\
  Stash.otpResetDate d' = None.
Proof. repeat split. Qed.

Lemma merge_cancel_login d :
  LoginPatch.merge (LoginPatch.otp Keep Delete Keep) d = Login.clearOtpResetDate d.
Proof. reflexivity. Qed.

Lemma merge_cancel_stash d :
  StashPatch.merge (StashPatch.otp Keep Delete Keep) d = Stash.clearOtpResetDate d.
Proof.
  unfold StashPatch.merge, Stash.clearOtpResetDate. simpl. f_equal.
  apply map_eq. intros name. rewrite lookup_merge, lookup_empty.
  now destruct (Stash.boxes d !! name).
Qed.

(** A patch never renames a node, so the kit's node is found again after the
    merge. *)
Lemma merge_keeps_loginId_stash patch loginId d :
  String.eqb (Stash.loginId (StashPatch.merge patch d)) loginId
  = String.eqb (Stash.loginId d) loginId.
Proof. reflexivity. Qed.

Lemma searchForest_mergeStashes kit l :
  searchForest (stashHasId (Kit.loginId kit)) (mergeStashes kit l)
  = mapData (StashPatch.merge (Kit.stash kit))
      <$> searchForest (stashHasId (Kit.loginId kit)) l.
Proof.
  unfold mergeStashes, stashHasId. apply searchForest_merged.
  intros d. apply merge_keeps_loginId_stash.
Qed.

Lemma mergeStashes_frame kit l :
  mergeStashes kit l = l \/
  rewritesFirst (fun d => String.eqb (Stash.loginId d) (Kit.loginId kit))
                (StashPatch.merge (Kit.stash kit))
                (flat_map nodes l) (flat_map nodes (mergeStashes kit l)).
Proof.
  unfold mergeStashes, stashHasId.
  destruct (updateForest _ _ l) as [l'|] eqn:Hupd; [right | now left].
  simpl. now apply updateForest_nodes.
Qed.

(** A stash node without 2FA is the same after 2FA has been switched on and
    off. *)
Lemma merge_disable_enable_stash otpKey otpTimeout d :
  Stash.otpKey d = None -> Stash.otpTimeout d = None ->
  Stash.otpResetDate d = None ->
  StashPatch.merge (StashPatch.otp Delete Delete Delete)
    (StashPatch.merge (StashPatch.otp (Assign otpKey) Delete (Assign otpTimeout)) d)
  = d.
Proof.
  destruct d as [id app user uid last key timeout reset boxes]. simpl.
  intros -> -> ->. unfold StashPatch.merge. simpl. f_equal.
  apply map_eq. intros name. rewrite !lookup_merge, lookup_empty.
  now destruct (boxes !! name).
Qed.

Lemma mergeStashes_round_trip enable disable l :
  Kit.loginId disable = Kit.loginId enable ->
  (forall d, Stash.otpKey d = None -> Stash.otpTimeout d = None ->
             Stash.otpResetDate d = None ->
             StashPatch.merge (Kit.stash disable)
               (StashPatch.merge (Kit.stash enable) d) = d) ->
  (forall stash,
      searchForest (stashHasId (Kit.loginId enable)) l = Some stash ->
      Stash.otpKey (data stash) = None /\
      Stash.otpTimeout (data stash) = None /\
      Stash.otpResetDate (data stash) = None) ->
  mergeStashes disable (mergeStashes enable l) = l.
Proof.
  intros Hid Hback Hplain. unfold mergeStashes, stashHasId. rewrite Hid.
  set (q := fun d => String.eqb (Stash.loginId d) (Kit.loginId enable)).
  rewrite updateForest_twice by reflexivity.
  destruct (updateForest (onData q) (fun d => _) l) as [l'|] eqn:Hboth.
  - simpl. eapply updateForest_fixed; [| |exact Hboth]; [reflexivity|].
    intros n Hn. destruct (Hplain n Hn) as (Hkey & Htimeout & Hreset).
    now apply Hback.
  - apply (updateForest_missing q (StashPatch.merge (Kit.stash enable)))
      in Hboth; [|reflexivity..].
    now rewrite Hboth.
Qed.

Lemma enableOtp_run accountId otpTimeout w account :
  accounts w !! accountId = Some account ->
  enableOtp accountId otpTimeout w =
  match Login.otpKey (data (loginTree account)) with
  | Some existing =>
      (applyKit accountId (loginTree account)
         (enableOtpKit (loginTree account) (fixOtpKey existing) otpTimeout) ;;
       ret tt) w
  | None =>
      (applyKit accountId (loginTree account)
         (enableOtpKit (loginTree account)
            (base32.stringify
               (map (fun i => entropy w (drawn w + i)%nat) (seq 0 10)))
            otpTimeout) ;;
       ret tt) (withDrawn (drawn w + 10) w)
  end.
Proof.
  intros Hacc. unfold enableOtp, random. run. rewrite Hacc.
  now destruct (Login.otpKey (data (loginTree account))).
Qed.

(** C6.  [enableOtp] takes the secret from the tree, normalised, when the
    tree has one, and leaves the random source alone; only when the tree has
    none does it draw ten bytes that were never drawn before and encode them
    in base32.  The kit it applies assigns that secret and the timeout and
    deletes [otpResetDate], in the stash patch and in the login patch
    alike. *)
Theorem enableOtp_secret accountId otpTimeout w account :
  accounts w !! accountId = Some account ->
  exists otpKey w0,
    match Login.otpKey (data (loginTree account)) with
    | Some existing => otpKey = fixOtpKey existing /\ w0 = w
    | None =>
        otpKey = base32.stringify
                   (map (fun i => entropy w (drawn w + i)%nat) (seq 0 10)) /\
        w0 = withDrawn (drawn w + 10) w
    end /\
    exists kit,
      enableOtp accountId otpTimeout w
      = (applyKit accountId (loginTree account) kit ;; ret tt) w0 /\
      Kit.loginId kit = Login.loginId (data (loginTree account)) /\
      Kit.server kit = Some (wasChangeOtpPayload otpKey otpTimeout) /\
      Kit.stash kit = StashPatch.otp (Assign otpKey) Delete (Assign otpTimeout) /\
      Kit.login kit = LoginPatch.otp (Assign otpKey) Delete (Assign otpTimeout) /\
      (forall d,
          Stash.otpKey (StashPatch.merge (Kit.stash kit) d) = Some otpKey /\
          Stash.otpTimeout (StashPatch.merge (Kit.stash kit) d) = Some otpTimeout /\
          Stash.otpResetDate (StashPatch.merge (Kit.stash kit) d) = None) /\
      (forall d,
          Login.otpKey (LoginPatch.merge (Kit.login kit) d) = Some otpKey /\
          Login.otpTimeout (LoginPatch.merge (Kit.login kit) d) = Some otpTimeout /\
          Login.otpResetDate (LoginPatch.merge (Kit.login kit) d) = None).
Proof.
  intros Hacc. rewrite (enableOtp_run _ _ _ _ Hacc).
  destruct (Login.otpKey (data (loginTree account))) as [existing|];
    eexists; eexists; (split; [split; reflexivity|]);
    eexists; (split; [reflexivity|]); repeat split.
Qed.

(** C5.  Once [enableOtp] and then [disableOtp] have gone through on an
    account, 2FA has been on in between and is off again: the node of the tree
    in memory with the tree's [loginId] has no [otpKey], [otpTimeout] or
    [otpResetDate], and neither has the stash node with that [loginId]; an
    account and a stash that had none of the three to begin with are back to
    what they were.  [disableOtp] does it with one kit, the same whatever
    [applyKit] it is run over: its method is DELETE, its path is
    ["/v2/login/otp"], it has no payload, and its stash and login patches mark
    the three fields for deletion; a request made from this kit is a DELETE
    to that path. *)
Theorem enableOtp_disableOtp_round_trip accountId otpTimeout w w1 w2 :
  enableOtp accountId otpTimeout w = (Ok tt, w1) ->
  disableOtp accountId w1 = (Ok tt, w2) ->
  exists account account1 account2 kit,
    accounts w !! accountId = Some account /\
    accounts w1 !! accountId = Some account1 /\
    accounts w2 !! accountId = Some account2 /\
    is_Some (Login.otpKey (data (loginTree account1))) /\
    Login.otpTimeout (data (loginTree account1)) = Some otpTimeout /\
    kit = {| Kit.serverMethod := Some DELETE;
             Kit.serverPath := "/v2/login/otp";
             Kit.server := None;
             Kit.stash := StashPatch.otp Delete Delete Delete;
             Kit.login := LoginPatch.otp Delete Delete Delete;
             Kit.loginId := Login.loginId (data (loginTree account)) |} /\
    (forall apply,
        disableOtpVia apply accountId w1
        = (apply accountId (loginTree account1) kit ;; ret tt) w1) /\
    disableOtp accountId w1
    = (applyKit accountId (loginTree account1) kit ;; ret tt) w1 /\
    (forall payload,
        kitRequest (loginTree account1) kit payload
        = {| target := Some (Login.loginId (data (loginTree account)));
             method := DELETE;
             path := "/v2/login/otp";
             body := payload |}) /\
    (exists node,
        searchTree (loginHasId (Kit.loginId kit)) (loginTree account2) = Some node /\
        Login.otpKey (data node) = None /\
        Login.otpTimeout (data node) = None /\
        Login.otpResetDate (data node) = None) /\
    (forall stash,
        searchForest (stashHasId (Kit.loginId kit)) (stashes w2) = Some stash ->
        Stash.otpKey (data stash) = None /\
        Stash.otpTimeout (data stash) = None /\
        Stash.otpResetDate (data stash) = None) /\
    (forall stash1,
        searchForest (stashHasId (Kit.loginId kit)) (stashes w1) = Some stash1 ->
        exists stash,
          searchForest (stashHasId (Kit.loginId kit)) (stashes w2) = Some stash) /\
    (Login.otpKey (data (loginTree account)) = None ->
     Login.otpTimeout (data (loginTree account)) = None ->
     Login.otpResetDate (data (loginTree account)) = None ->
     account2 = account) /\
    ((forall stash,
         searchForest (stashHasId (Kit.loginId kit)) (stashes w) = Some stash ->
         Stash.otpKey (data stash) = None /\
         Stash.otpTimeout (data stash) = None /\
         Stash.otpResetDate (data stash) = None) ->
     stashes w2 = stashes w).
Proof.
  intros Henable Hdisable.
  destruct (accounts w !! accountId) as [account|] eqn:Hacc;
    [|revert Henable; unfold enableOtp; run; rewrite Hacc; discriminate].
  (* the world in between *)
  assert (Hbetween : exists key,
             accounts w1 !! accountId
             = Some (setLoginTree
                       (mergeLogin (enableOtpKit (loginTree account) key otpTimeout)
                                   (loginTree account)) account) /\
             stashes w1
             = mergeStashes (enableOtpKit (loginTree account) key otpTimeout)
                            (stashes w)).
  { rewrite (enableOtp_run _ _ _ _ Hacc) in Henable. revert Henable.
    destruct (Login.otpKey (data (loginTree account))) as [existing|];
      unfold bind; rewrite applyKit_run; simpl;
      match goal with
      | |- context [server ?x ?history] => destruct (server x history)
      end;
      (discriminate ||
       (intros [= <-]; eexists; split;
        [now apply committed_account | reflexivity])). }
  destruct Hbetween as (key & Hacc1 & Hstashes1).
  rewrite mergeLogin_root in Hacc1 by reflexivity.
  rewrite (disableOtp_run _ _ _ Hacc1) in Hdisable. injection Hdisable as <-.
  eexists account, _, _, (disableOtpKit _).
  split; [reflexivity|]. split; [exact Hacc1|].
  split; [apply committed_account; exact Hacc1|].
  split; [now eexists|]. split; [reflexivity|]. split; [reflexivity|].
  split; [intros apply; unfold disableOtpVia; run; now rewrite Hacc1|].
  split; [unfold disableOtp, disableOtpVia; run; now rewrite Hacc1|].
  split; [reflexivity|].
  rewrite mergeLogin_root by reflexivity. split; [|split; [|split; [|split]]].
  - eexists. split.
    + apply searchTree_root. unfold loginHasId, onData. simpl.
      apply String.eqb_refl.
    + repeat split.
  - intros stash. unfold committed. simpl stashes.
    rewrite searchForest_mergeStashes.
    destruct (searchForest _ (stashes w1)) as [found|]; [|discriminate].
    intros [= <-]. repeat split.
  - intros stash1 Hfound. unfold committed. simpl stashes.
    rewrite searchForest_mergeStashes. simpl in Hfound |- *.
    rewrite Hfound. now eexists.
  - destruct account as [appNode [[] cs]]. simpl. now intros -> -> ->.
  - intros Hplain. unfold committed. simpl stashes. rewrite Hstashes1.
    apply mergeStashes_round_trip; [reflexivity| |exact Hplain].
    intros d. apply merge_disable_enable_stash.
Qed.

(** What a kit that only deletes [otpResetDate] does to the stashes. *)
Lemma mergeStashes_cancel kit l :
  Kit.stash kit = StashPatch.otp Keep Delete Keep ->
  mergeStashes kit l
  = default l (updateForest (stashHasId (Kit.loginId kit))
                            Stash.clearOtpResetDate l).
Proof.
  intros Hpatch. unfold mergeStashes. rewrite Hpatch.
  now rewrite (updateForest_ext _ _ Stash.clearOtpResetDate l merge_cancel_stash).
Qed.

(** C7.  [cancelOtpReset] on an account with 2FA sends one request, whose
    payload is the tree's own [otpKey] and [otpTimeout].  When it goes
    through, it has deleted [otpResetDate] in the root of the account's tree
    and in the stash node with that [loginId], if the stashes have one, and
    changed nothing else: every other field of those nodes, [otpKey] and
    [otpTimeout] among them, every other node, the shape of the trees and
    every other account are as before.  When it is rejected, the stashes and
    the accounts are as before altogether. *)
Theorem cancelOtpReset_clears_reset_only accountId w account otpTimeout otpKey :
  accounts w !! accountId = Some account ->
  Login.otpTimeout (data (loginTree account)) = Some otpTimeout ->
  Login.otpKey (data (loginTree account)) = Some otpKey ->
  sent (snd (cancelOtpReset accountId w))
  = (sent w ++ [ {| target := Some (Login.loginId (data (loginTree account)));
                    method := defaultMethod;
                    path := "/v2/login/otp";
                    body := wasChangeOtpPayload otpKey otpTimeout |} ])%list /\
  (forall w',
      cancelOtpReset accountId w = (Ok tt, w') ->
      accounts w' !! accountId
      = Some {| login := login account;
                loginTree := mapData Login.clearOtpResetDate (loginTree account) |} /\
      (forall other,
          other <> accountId -> accounts w' !! other = accounts w !! other) /\
      stashes w'
      = default (stashes w)
          (updateForest (stashHasId (Login.loginId (data (loginTree account))))
                        Stash.clearOtpResetDate (stashes w)) /\
      (forall stash,
          searchForest (stashHasId (Login.loginId (data (loginTree account))))
                       (stashes w) = Some stash ->
          searchForest (stashHasId (Login.loginId (data (loginTree account))))
                       (stashes w')
          = Some (mapData Stash.clearOtpResetDate stash) /\
          rewritesFirst
            (fun d => String.eqb (Stash.loginId d)
                                 (Login.loginId (data (loginTree account))))
            Stash.clearOtpResetDate
            (flat_map nodes (stashes w)) (flat_map nodes (stashes w'))) /\
      (searchForest (stashHasId (Login.loginId (data (loginTree account))))
                    (stashes w) = None ->
       stashes w' = stashes w) /\
      map skeleton (stashes w') = map skeleton (stashes w)) /\
  (forall e w',
      cancelOtpReset accountId w = (Err e, w') ->
      accounts w' = accounts w /\ stashes w' = stashes w) /\
  (forall d,
      Login.otpKey (Login.clearOtpResetDate d) = Login.otpKey d /\
      Login.otpTimeout (Login.clearOtpResetDate d) = Login.otpTimeout d /\
      Login.otpResetDate (Login.clearOtpResetDate d) = None) /\
  (forall d,
      Stash.otpKey (Stash.clearOtpResetDate d) = Stash.otpKey d /\
      Stash.otpTimeout (Stash.clearOtpResetDate d) = Stash.otpTimeout d /\
      Stash.otpResetDate (Stash.clearOtpResetDate d) = None).
Proof.
  intros Hacc Htimeout Hkey.
  rewrite (cancelOtpReset_run _ _ _ Hacc), Htimeout, Hkey.
  set (kit := cancelOtpResetKit (loginTree account) otpTimeout otpKey).
  set (loginId := Login.loginId (data (loginTree account))).
  unfold bind. rewrite applyKit_run. simpl.
  destruct (server w _) as [reply|status reply]; simpl.
  - split; [reflexivity|]. split; [|split; [discriminate|]].
    + intros w' [= <-].
      assert (Hstashes :
                stashes (committed accountId (loginTree account) kit
                           (withSent
                              (sent w ++ [kitRequest (loginTree account) kit
                                            (wasChangeOtpPayload otpKey otpTimeout)])
                              w))
                = default (stashes w)
                    (updateForest (stashHasId loginId)
                                  Stash.clearOtpResetDate (stashes w)))
        by (unfold committed; simpl stashes; now apply mergeStashes_cancel).
      split; [|split; [|split; [|split; [|split]]]].
      * erewrite committed_account by exact Hacc.
        rewrite mergeLogin_root by reflexivity. reflexivity.
      * intros other Hother. now rewrite committed_other.
      * exact Hstashes.
      * intros stash Hfound. rewrite Hstashes. split.
        -- unfold stashHasId in *. rewrite searchForest_merged by reflexivity.
           now rewrite Hfound.
        -- pose proof (updateForest_located
                         (fun d => String.eqb (Stash.loginId d) loginId)
                         Stash.clearOtpResetDate (fun d => eq_refl) (stashes w))
             as Hlocated.
           unfold locatedForest in Hlocated. unfold stashHasId in *.
           rewrite Hfound in Hlocated. destruct Hlocated as (l' & Hl' & _).
           rewrite Hl'. simpl. now apply updateForest_nodes.
      * intros Hnone. rewrite Hstashes.
        pose proof (updateForest_located
                      (fun d => String.eqb (Stash.loginId d) loginId)
                      Stash.clearOtpResetDate (fun d => eq_refl) (stashes w))
          as Hlocated.
        unfold locatedForest in Hlocated. unfold stashHasId in *.
        rewrite Hnone in Hlocated. now rewrite Hlocated.
      * rewrite Hstashes.
        destruct (updateForest _ _ (stashes w)) as [l'|] eqn:Hl'; [|reflexivity].
        simpl. now apply updateForest_skeleton in Hl'.
    + split; intros d; repeat split.
  - split; [reflexivity|]. split; [discriminate|]. split.
    + intros e w' [= _ <-]. split; reflexivity.
    + split; intros d; repeat split.
Qed.

(** ** Further properties of the functions of otp.js *)

(** The length of a string built from a list of characters. *)
Lemma length_string_of_list_ascii l :
  String.length (string_of_list_ascii l) = List.length l.
Proof. induction l as [|c l IH]; simpl; congruence. Qed.

Lemma length_dataBits bytes :
  List.length (Rfc4648.dataBits bytes) = (8 * List.length bytes)%nat.
Proof.
  unfold Rfc4648.dataBits. induction bytes as [|b bytes IH]; [reflexivity|].
  simpl. rewrite IH. lia.
Qed.

(** Ten bytes make sixteen characters of base32 and no padding. *)
Lemma base32_of_ten_bytes bytes :
  List.length bytes = 10%nat -> String.length (base32.stringify bytes) = 16%nat.
Proof.
  intros Hlen. unfold base32.stringify, Rfc4648.stringify.
  rewrite length_string_of_list_ascii, length_app, length_map, length_seq,
    repeat_length, length_dataBits, Hlen.
  reflexivity.
Qed.

(** X1.  [getStashOtp] gives no code exactly when there is nothing to make
    one from: no [otp] and no [otpKey] in the options and no [otpKey] in the
    stash. *)
Theorem getStashOtp_absent_iff stash opts w :
  getStashOtp stash opts w = None <->
  Opts.otp opts = None /\ Opts.otpKey opts = None /\
  Stash.otpKey (data stash) = None.
Proof.
  unfold getStashOtp.
  destruct (Opts.otp opts) as [otp|].
  - destruct (testDigits otp && _)%bool; split; try discriminate;
      intros (Hotp & _); discriminate.
  - destruct (Opts.otpKey opts) as [key|].
    + split; [discriminate | intros (_ & Hkey & _); discriminate].
    + destruct (Stash.otpKey (data stash)); split; auto; try discriminate.
      intros (_ & _ & Hkey). discriminate.
Qed.

(** X2.  An [otp] option decides the code alone, whatever keys the options
    and the stash hold: it is passed on untouched when it holds a digit
    somewhere and has fewer than sixteen characters, and is used as a secret
    for [totp] in every other case, the empty string and strings of sixteen
    characters or more among them. *)
Theorem getStashOtp_otp_option stash otp otpKey now w :
  getStashOtp stash {| Opts.otp := Some otp; Opts.otpKey := otpKey; Opts.now := now |} w
  = if existsb isDigit (list_ascii_of_string otp) && (String.length otp <? 16)%nat
    then Some otp
    else Some (totp otp None w).
Proof. unfold getStashOtp. simpl. now rewrite testDigits_exists. Qed.

(** X3.  With no OTP options, the stash gives the code the logged-in tree
    gives whenever the two hold the same key. *)
Theorem getStashOtp_getLoginOtp stash login now w :
  Stash.otpKey (data stash) = Login.otpKey (data login) ->
  getStashOtp stash {| Opts.otp := None; Opts.otpKey := None; Opts.now := now |} w
  = getLoginOtp login w.
Proof. intros Hkey. unfold getStashOtp, getLoginOtp. simpl. now rewrite Hkey. Qed.

(** X4.  The secret [enableOtp] makes for an account without one has sixteen
    characters, so that [getStashOtp], given that secret as the [otp] option,
    never takes it for a code: it answers with [totp] of it. *)
Theorem enableOtp_fresh_secret accountId otpTimeout w account :
  accounts w !! accountId = Some account ->
  Login.otpKey (data (loginTree account)) = None ->
  exists secret,
    enableOtp accountId otpTimeout w
    = (applyKit accountId (loginTree account)
         (enableOtpKit (loginTree account) secret otpTimeout) ;; ret tt)
        (withDrawn (drawn w + 10) w) /\
    String.length secret = 16%nat /\
    forall stash otpKey now w',
      getStashOtp stash
        {| Opts.otp := Some secret; Opts.otpKey := otpKey; Opts.now := now |} w'
      = Some (totp secret None w').
Proof.
  intros Hacc Hnone. rewrite (enableOtp_run _ _ _ _ Hacc), Hnone.
  assert (Hlen : String.length
                   (base32.stringify
                      (map (fun i => entropy w (drawn w + i)%nat) (seq 0 10)))
                 = 16%nat)
    by (apply base32_of_ten_bytes; now rewrite length_map, length_seq).
  revert Hlen.
  generalize (base32.stringify
                (map (fun i => entropy w (drawn w + i)%nat) (seq 0 10))).
  intros secret Hlen. exists secret.
  split; [reflexivity|]. split; [exact Hlen|].
  intros stash otpKey now w'. unfold getStashOtp. simpl.
  rewrite Hlen. simpl. now rewrite andb_false_r.
Qed.

(** X5.  For an account id that is not in the account table, [enableOtp],
    [disableOtp] and [cancelOtpReset] reject with a TypeError, raised by the
    read of the missing entry, and leave the world as it was: nothing is
    sent and no random byte is drawn. *)
Theorem unknown_account_rejected accountId otpTimeout w :
  accounts w !! accountId = None ->
  enableOtp accountId otpTimeout w = (Err TypeError, w) /\
  disableOtp accountId w = (Err TypeError, w) /\
  cancelOtpReset accountId w = (Err TypeError, w).
Proof.
  intros Hacc. unfold enableOtp, disableOtp, disableOtpVia, cancelOtpReset. run.
  now rewrite Hacc.
Qed.

(** X6.  How [resetOtp] fails.  When hashing the username rejects, nothing
    is sent; when the service refuses the request, the call rejects with its
    response; when the reply is not a reset payload, the call rejects although
    the request went through.  In no case does [resetOtp] itself touch the
    accounts, the stashes or the random source. *)
Theorem resetOtp_failures username resetToken w :
  (forall e w1,
      hashUsername username w = (Err e, w1) ->
      resetOtp username resetToken w = (Err e, w1)) /\
  (forall hash w1,
      hashUsername username w = (Ok hash, w1) ->
      let request :=
        {| target := None;
           method := DELETE;
           path := "/v2/login/otp";
           body := JObj [("userId", JStr (base64.stringify hash));
                         ("otpResetAuth", JStr resetToken)] |} in
      (forall status reply,
          server w1 (sent w1 ++ [request])%list = Failure status reply ->
          fst (resetOtp username resetToken w) = Err (FetchError status reply)) /\
      (forall reply,
          server w1 (sent w1 ++ [request])%list = Success reply ->
          asOtpResetPayload reply = None ->
          fst (resetOtp username resetToken w) = Err CleanerError) /\
      snd (resetOtp username resetToken w)
      = withSent (sent w1 ++ [request])%list w1).
Proof.
  split.
  - intros e w1 Hhash. unfold resetOtp. run. now rewrite Hhash.
  - intros hash w1 Hhash request. unfold resetOtp, loginFetch, send. run.
    rewrite Hhash. fold request. split; [|split].
    + now intros status reply ->.
    + intros reply -> Hclean. simpl. now rewrite Hclean.
    + destruct (server w1 _) as [reply|status reply]; [|reflexivity].
      now destruct (asOtpResetPayload reply).
Qed.

(** X7.  The two versions of [repairOtp] are the same call whenever the
    account has a username and a password and the lookup by login id of the
    one finds the stash tree and the node that the lookup by username and the
    search by [appId] of the other find. *)
Theorem repairOtp_versions_agree accountId otpKey w account passwordAuth username
    stashTree stash :
  accounts w !! accountId = Some account ->
  Login.passwordAuth (data (login account)) = Some passwordAuth ->
  Login.username (data (loginTree account)) = Some username ->
  getStashById w (Login.loginId (data (login account))) = Ok (stashTree, stash) ->
  getStash w username = Ok stashTree ->
  searchTree
    (fun node =>
       String.eqb (Stash.appId (data node)) (Login.appId (data (login account))))
    stashTree = Some stash ->
  repairOtp accountId otpKey w = repairOtpTs accountId otpKey w.
Proof.
  intros Hacc Hpassword Husername Hbyid Hbyname Hsearch.
  unfold repairOtp, repairOtpTs. run.
  rewrite Hacc, Hbyid, Hpassword, Husername, Hbyname. simpl.
  now rewrite Hsearch.
Qed.

(** X8.  What stops the TypeScript [repairOtp] before the login: a tree
    without a username, even with a password; a stash lookup that throws; a
    stash tree without a node for the application.  Each time the call rejects
    and the world is as it was, so [serverLogin] was not reached. *)
Theorem repairOtpTs_stops_early accountId otpKey w account :
  accounts w !! accountId = Some account ->
  (Login.username (data (loginTree account)) = None ->
   repairOtpTs accountId otpKey w
   = (Err (JsError "Cannot sync: missing username"), w)) /\
  (forall username passwordAuth,
      Login.username (data (loginTree account)) = Some username ->
      Login.passwordAuth (data (login account)) = Some passwordAuth ->
      (forall e,
          getStash w username = Err e ->
          repairOtpTs accountId otpKey w = (Err e, w)) /\
      (forall stashTree,
          getStash w username = Ok stashTree ->
          searchTree
            (fun node =>
               String.eqb (Stash.appId (data node))
                          (Login.appId (data (login account))))
            stashTree = None ->
          repairOtpTs accountId otpKey w
          = (Err (JsError "Cannot sync: missing on-disk data"), w))).
Proof.
  intros Hacc. split.
  - intros Hnone. unfold repairOtpTs. run. now rewrite Hacc, Hnone.
  - intros username passwordAuth Husername Hpassword. split.
    + intros e Hstash. unfold repairOtpTs. run.
      now rewrite Hacc, Husername, Hpassword, Hstash.
    + intros stashTree Hstash Hsearch. unfold repairOtpTs. run.
      rewrite Hacc, Husername, Hpassword, Hstash. simpl. now rewrite Hsearch.
Qed.

(** X9.  The kits of [enableOtp], [disableOtp] and [cancelOtpReset] keep the
    stash the mirror of the tree: a tree node and a stash node that hold the
    same 2FA settings hold the same settings again after the two patches of
    one of these kits; after those of [enableOtp] and [disableOtp] they do so
    even when they did not before. *)
Theorem otp_kits_keep_mirror tree otpKey otpTimeout l s :
  otpMirrors (LoginPatch.merge (Kit.login (enableOtpKit tree otpKey otpTimeout)) l)
             (StashPatch.merge (Kit.stash (enableOtpKit tree otpKey otpTimeout)) s) /\
  otpMirrors (LoginPatch.merge (Kit.login (disableOtpKit tree)) l)
             (StashPatch.merge (Kit.stash (disableOtpKit tree)) s) /\
  (otpMirrors l s ->
   otpMirrors
     (LoginPatch.merge (Kit.login (cancelOtpResetKit tree otpTimeout otpKey)) l)
     (StashPatch.merge (Kit.stash (cancelOtpResetKit tree otpTimeout otpKey)) s)).
Proof.
  split; [|split].
  - repeat split.
  - repeat split.
  - intros (Hkey & Htimeout & Hreset). repeat split; assumption.
Qed.

End Otp.

(** ** The functions at work on the sample account *)

(** RFC 4648, section 10. *)
Example base32_foobar :
  base32.stringify ["f"; "o"; "o"; "b"; "a"; "r"]%byte = "MZXW6YTBOI======".
Proof. reflexivity. Qed.

Example base32_fo : base32.stringify ["f"; "o"]%byte = "MZXQ====".
Proof. reflexivity. Qed.

Example base64_foob : base64.stringify ["f"; "o"; "o"; "b"]%byte = "Zm9vYg==".
Proof. reflexivity. Qed.

Example base64_empty : base64.stringify [] = "".
Proof. reflexivity. Qed.

(** A refused kit: the request is in the history, the stash and the account
    are what they were. *)
Lemma applyKit_all_or_nothing_witness :
  server (Sample.world Sample.plain [Sample.plainStash] Sample.refuse)
         [kitRequest POST Sample.plain
            (enableOtpKit Sample.wasChangeOtpPayload Sample.plain "JBSWY3DPEHPK3PXP" 3600)
            (Sample.wasChangeOtpPayload "JBSWY3DPEHPK3PXP" 3600)]
  = Failure 500 JNull /\
  exists w',
    applyKit POST "me" Sample.plain
      (enableOtpKit Sample.wasChangeOtpPayload Sample.plain "JBSWY3DPEHPK3PXP" 3600)
      (Sample.world Sample.plain [Sample.plainStash] Sample.refuse)
    = (Err (FetchError 500 JNull), w') /\
    stashes w' = [Sample.plainStash] /\
    accounts w' = accounts (Sample.world Sample.plain [Sample.plainStash] Sample.refuse).
Proof.
  split; [reflexivity|].
  exact (proj1 (applyKit_all_or_nothing POST "me" Sample.plain
                  (enableOtpKit Sample.wasChangeOtpPayload Sample.plain
                     "JBSWY3DPEHPK3PXP" 3600)
                  (Sample.world Sample.plain [Sample.plainStash] Sample.refuse))
               (Sample.wasChangeOtpPayload "JBSWY3DPEHPK3PXP" 3600) 500%Z JNull
               eq_refl eq_refl).
Defined.

(** Same key, same clock: same code. *)
Lemma totp_deterministic_witness :
  Login.otpKey (data Sample.protected) = Login.otpKey (data Sample.keyOnly) /\
  clock (Sample.world Sample.protected [] Sample.accept)
  = clock (Sample.world Sample.keyOnly [Sample.plainStash] Sample.refuse) /\
  getLoginOtp Sample.hotp 30 Sample.protected
    (Sample.world Sample.protected [] Sample.accept)
  = getLoginOtp Sample.hotp 30 Sample.keyOnly
      (Sample.world Sample.keyOnly [Sample.plainStash] Sample.refuse).
Proof.
  split; [reflexivity|]. split; [reflexivity|].
  exact (proj2 (proj2 (totp_deterministic Sample.hotp 30))
               Sample.protected Sample.keyOnly
               (Sample.world Sample.protected [] Sample.accept)
               (Sample.world Sample.keyOnly [Sample.plainStash] Sample.refuse)
               eq_refl eq_refl).
Defined.

Example getLoginOtp_protected :
  getLoginOtp Sample.hotp 30 Sample.protected
    (Sample.world Sample.protected [] Sample.accept) = Some "287082".
Proof. reflexivity. Qed.

Example getLoginOtp_plain :
  getLoginOtp Sample.hotp 30 Sample.plain
    (Sample.world Sample.plain [] Sample.accept) = None.
Proof. reflexivity. Qed.

(** C3 as the claim words it does not hold: this account has an [otpKey], so
    the two fields are not both absent, and [cancelOtpReset] still fails with
    the ConfigurationError, because [otpTimeout] is missing. *)
Lemma cancelOtpReset_fails_with_key_present :
  accounts (Sample.world Sample.keyOnly [Sample.plainStash] Sample.accept) !! "me"
  = Some {| login := Sample.keyOnly; loginTree := Sample.keyOnly |} /\
  cancelOtpReset Sample.wasChangeOtpPayload POST "me"
    (Sample.world Sample.keyOnly [Sample.plainStash] Sample.accept)
  = (Err (JsError "Cannot cancel 2FA reset: 2FA is not enabled."),
     Sample.world Sample.keyOnly [Sample.plainStash] Sample.accept) /\
  isConfigurationError (JsError "Cannot cancel 2FA reset: 2FA is not enabled.")
  = true /\
  ~ (Login.otpTimeout (data Sample.keyOnly) = None /\
     Login.otpKey (data Sample.keyOnly) = None).
Proof.
  split; [reflexivity|]. split; [reflexivity|]. split; [reflexivity|].
  intros [_ Hkey]. discriminate Hkey.
Qed.

(** [disableOtp] and then [cancelOtpReset] on the protected account. *)
Lemma cancelOtpReset_needs_otp_witness :
  disableOtp POST "me"
    (Sample.world Sample.protected [Sample.protectedStash] Sample.accept)
  = (Ok tt,
     snd (disableOtp POST "me"
            (Sample.world Sample.protected [Sample.protectedStash] Sample.accept))) /\
  cancelOtpReset Sample.wasChangeOtpPayload POST "me"
    (snd (disableOtp POST "me"
            (Sample.world Sample.protected [Sample.protectedStash] Sample.accept)))
  = (Err (JsError "Cannot cancel 2FA reset: 2FA is not enabled."),
     snd (disableOtp POST "me"
            (Sample.world Sample.protected [Sample.protectedStash] Sample.accept))).
Proof.
  split; [reflexivity|].
  exact (proj2 (cancelOtpReset_needs_otp Sample.wasChangeOtpPayload POST "me"
                  (Sample.world Sample.protected [Sample.protectedStash] Sample.accept))
               _ eq_refl).
Defined.

(** An unknown account id: nothing happens. *)
Lemma repairOtp_unknown_account_witness :
  accounts (Sample.world Sample.plain [Sample.plainStash] Sample.refuse) !! "nobody"
  = None /\
  repairOtp Sample.hotp 30 Sample.getStashById Sample.serverLogin
    "nobody" "JBSWY3DPEHPK3PXP"
    (Sample.world Sample.plain [Sample.plainStash] Sample.refuse)
  = (Ok tt, Sample.world Sample.plain [Sample.plainStash] Sample.refuse) /\
  repairOtpTs Sample.hotp 30 Sample.getStash Sample.serverLogin
    "nobody" "JBSWY3DPEHPK3PXP"
    (Sample.world Sample.plain [Sample.plainStash] Sample.refuse)
  = (Ok tt, Sample.world Sample.plain [Sample.plainStash] Sample.refuse).
Proof.
  split; [reflexivity|].
  exact (proj1 (repairOtp_unknown_account Sample.hotp 30 Sample.getStashById
                  Sample.getStash Sample.serverLogin "nobody" "JBSWY3DPEHPK3PXP"
                  (Sample.world Sample.plain [Sample.plainStash] Sample.refuse)
                  eq_refl)).
Defined.

(** A repair on the account with a password reaches [serverLogin] in both
    versions, with [now] set to the [lastLogin] of the stash; on the account
    without one, both versions fail with a ConfigurationError. *)
Lemma repairOtp_password_and_code_witness :
  (exists opts,
      Opts.now opts = Some 1500000000000%Z /\
      repairOtp Sample.hotp 30 Sample.getStashById Sample.serverLogin
        "me" "JBSWY3DPEHPK3PXP"
        (Sample.world Sample.plain [Sample.plainStash] Sample.accept)
      = (Sample.serverLogin Sample.plainStash Sample.plainStash opts
           (JObj [("userId", JStr "dXNlcklk"); ("passwordAuth", JStr "cHJvb2Y=");
                  ("otp", JStr "287082")])
           (fun _ => ret ["k"; "e"; "y"]%byte) ;; ret tt)%async
          (Sample.world Sample.plain [Sample.plainStash] Sample.accept)) /\
  (exists opts,
      Opts.now opts = Some 1500000000000%Z /\
      repairOtpTs Sample.hotp 30 Sample.getStash Sample.serverLogin
        "me" "JBSWY3DPEHPK3PXP"
        (Sample.world Sample.plain [Sample.plainStash] Sample.accept)
      = (Sample.serverLogin Sample.plainStash Sample.plainStash opts
           (JObj [("userId", JStr "dXNlcklk"); ("passwordAuth", JStr "cHJvb2Y=");
                  ("otp", JStr "287082")])
           (fun _ => ret ["k"; "e"; "y"]%byte) ;; ret tt)%async
          (Sample.world Sample.plain [Sample.plainStash] Sample.accept)) /\
  (exists e,
      repairOtp Sample.hotp 30 Sample.getStashById Sample.serverLogin
        "me" "JBSWY3DPEHPK3PXP"
        (Sample.world Sample.noPassword [Sample.plainStash] Sample.accept)
      = (Err e, Sample.world Sample.noPassword [Sample.plainStash] Sample.accept) /\
      isConfigurationError e = true) /\
  (exists e,
      repairOtpTs Sample.hotp 30 Sample.getStash Sample.serverLogin
        "me" "JBSWY3DPEHPK3PXP"
        (Sample.world Sample.noPassword [Sample.plainStash] Sample.accept)
      = (Err e, Sample.world Sample.noPassword [Sample.plainStash] Sample.accept) /\
      isConfigurationError e = true).
Proof.
  pose proof (repairOtp_password_and_code Sample.hotp 30 Sample.getStashById
                Sample.getStash Sample.serverLogin "me" "JBSWY3DPEHPK3PXP"
                (Sample.world Sample.plain [Sample.plainStash] Sample.accept)
                {| login := Sample.plain; loginTree := Sample.plain |} eq_refl)
    as [_ Hwith].
  pose proof (repairOtp_password_and_code Sample.hotp 30 Sample.getStashById
                Sample.getStash Sample.serverLogin "me" "JBSWY3DPEHPK3PXP"
                (Sample.world Sample.noPassword [Sample.plainStash] Sample.accept)
                {| login := Sample.noPassword; loginTree := Sample.noPassword |}
                eq_refl)
    as [Hwithout _].
  destruct (Hwith Sample.password eq_refl) as [Hflow Hts].
  destruct (Hwithout eq_refl) as [(e & Hrun & He) Hts'].
  split; [exact (Hflow Sample.plainStash Sample.plainStash eq_refl)|].
  split; [exact (Hts "js test 0" Sample.plainStash Sample.plainStash
                     eq_refl eq_refl eq_refl)|].
  split; [|exact Hts'].
  exists e. split; [exact Hrun|].
  exact (proj2 (He (Sample.plainStash, Sample.plainStash) eq_refl)).
Defined.

(** A reset request answered with a date. *)
Lemma resetOtp_request_witness :
  Sample.hashUsername "js test 0"
    (Sample.world Sample.protected [Sample.protectedStash] Sample.resetPending)
  = (Ok ["h"; "a"; "s"; "h"]%byte,
     Sample.world Sample.protected [Sample.protectedStash] Sample.resetPending) /\
  sent (snd (resetOtp Sample.hashUsername Sample.asOtpResetPayload
               "js test 0" "reset-token"
               (Sample.world Sample.protected [Sample.protectedStash]
                             Sample.resetPending)))
  = [ {| target := None; method := DELETE; path := "/v2/login/otp";
         body := JObj [("userId", JStr "aGFzaA==");
                       ("otpResetAuth", JStr "reset-token")] |} ] /\
  fst (resetOtp Sample.hashUsername Sample.asOtpResetPayload
         "js test 0" "reset-token"
         (Sample.world Sample.protected [Sample.protectedStash]
                       Sample.resetPending))
  = Ok 1600000000000%Z.
Proof.
  split; [reflexivity|].
  pose proof (resetOtp_request Sample.hashUsername Sample.asOtpResetPayload
                "js test 0" "reset-token"
                (Sample.world Sample.protected [Sample.protectedStash]
                              Sample.resetPending)
                ["h"; "a"; "s"; "h"]%byte _ eq_refl) as (Hsent & Hdate & _).
  split; [exact Hsent|].
  exact (Hdate _ _ eq_refl eq_refl).
Defined.

(** Enabling 2FA on the plain account draws the secret; on the protected
    account it keeps the one that is there. *)
Lemma enableOtp_secret_witness :
  accounts (Sample.world Sample.plain [Sample.plainStash] Sample.accept) !! "me"
  = Some {| login := Sample.plain; loginTree := Sample.plain |} /\
  exists otpKey w0,
    (otpKey = "AAAQEAYEAUDAOCAJ" /\
     w0 = withDrawn 10 (Sample.world Sample.plain [Sample.plainStash] Sample.accept)) /\
    exists kit,
      enableOtp Sample.fixOtpKey Sample.wasChangeOtpPayload POST "me" 3600
        (Sample.world Sample.plain [Sample.plainStash] Sample.accept)
      = (applyKit POST "me" Sample.plain kit ;; ret tt)%async w0 /\
      Kit.stash kit = StashPatch.otp (Assign otpKey) Delete (Assign 3600%Z) /\
      Kit.login kit = LoginPatch.otp (Assign otpKey) Delete (Assign 3600%Z).
Proof.
  split; [reflexivity|].
  destruct (enableOtp_secret Sample.fixOtpKey Sample.wasChangeOtpPayload POST
              "me" 3600
              (Sample.world Sample.plain [Sample.plainStash] Sample.accept)
              {| login := Sample.plain; loginTree := Sample.plain |} eq_refl)
    as (otpKey & w0 & Hdrawn & kit & Hrun & _ & _ & Hstash & Hlogin & _).
  exists otpKey, w0. split; [exact Hdrawn|].
  exists kit. split; [exact Hrun|]. split; [exact Hstash | exact Hlogin].
Defined.

(** 2FA switched on and off again on the plain account; the kit of
    [disableOtp] is taken by an [applyKit] that takes a DELETE only. *)
Lemma enableOtp_disableOtp_round_trip_witness :
  exists w1 w2,
    enableOtp Sample.fixOtpKey Sample.wasChangeOtpPayload POST "me" 3600
      (Sample.world Sample.plain [Sample.plainStash] Sample.accept)
    = (Ok tt, w1) /\
    disableOtp POST "me" w1 = (Ok tt, w2) /\
    disableOtpVia Sample.onlyDelete "me" w1 = (Ok tt, w1) /\
    stashes w1 = [Sample.stashTree (Some "AAAQEAYEAUDAOCAJ") (Some 3600%Z) None] /\
    stashes w2 = [Sample.plainStash] /\
    accounts w2 !! "me" = Some {| login := Sample.plain; loginTree := Sample.plain |} /\
    forall stash,
      searchForest (stashHasId "root") (stashes w2) = Some stash ->
      Stash.otpKey (data stash) = None /\
      Stash.otpTimeout (data stash) = None /\
      Stash.otpResetDate (data stash) = None.
Proof.
  eexists. eexists.
  split; [vm_compute; reflexivity|]. split; [vm_compute; reflexivity|].
  destruct (enableOtp_disableOtp_round_trip Sample.fixOtpKey
              Sample.wasChangeOtpPayload POST "me" 3600
              (Sample.world Sample.plain [Sample.plainStash] Sample.accept)
              _ _ eq_refl eq_refl)
    as (account & account1 & account2 & kit & Hacc & _ & Hacc2 & _ & _ & Hkit
        & Hvia & _ & _ & _ & Hstash & _ & Haccount & Hstashes).
  injection Hacc as <-. subst kit.
  split; [exact (eq_trans (Hvia Sample.onlyDelete) eq_refl)|].
  split; [reflexivity|].
  split.
  { refine (eq_trans (Hstashes _) eq_refl).
    intros stash [= <-]. repeat split. }
  split; [|exact Hstash].
  refine (eq_trans Hacc2 _). f_equal. apply Haccount; reflexivity.
Defined.

(** A pending reset cancelled on the protected account. *)
Lemma cancelOtpReset_clears_reset_only_witness :
  accounts (Sample.world Sample.protected [Sample.protectedStash] Sample.accept)
    !! "me"
  = Some {| login := Sample.protected; loginTree := Sample.protected |} /\
  sent (snd (cancelOtpReset Sample.wasChangeOtpPayload POST "me"
               (Sample.world Sample.protected [Sample.protectedStash]
                             Sample.accept)))
  = [ {| target := Some "root"; method := POST; path := "/v2/login/otp";
         body := JObj [("otpKey", JStr "JBSWY3DPEHPK3PXP");
                       ("otpTimeout", JNum 3600)] |} ] /\
  accounts (snd (cancelOtpReset Sample.wasChangeOtpPayload POST "me"
                   (Sample.world Sample.protected [Sample.protectedStash]
                                 Sample.accept))) !! "me"
  = Some {| login := Sample.protected;
            loginTree := Sample.tree (Some Sample.password)
                           (Some "JBSWY3DPEHPK3PXP") (Some 3600%Z) None |} /\
  stashes (snd (cancelOtpReset Sample.wasChangeOtpPayload POST "me"
                  (Sample.world Sample.protected [Sample.protectedStash]
                                Sample.accept)))
  = [Sample.stashTree (Some "JBSWY3DPEHPK3PXP") (Some 3600%Z) None].
Proof.
  split; [reflexivity|].
  destruct (cancelOtpReset_clears_reset_only Sample.wasChangeOtpPayload POST "me"
              (Sample.world Sample.protected [Sample.protectedStash] Sample.accept)
              {| login := Sample.protected; loginTree := Sample.protected |}
              3600 "JBSWY3DPEHPK3PXP" eq_refl eq_refl eq_refl)
    as (Hsent & Hok & _).
  destruct (Hok _ eq_refl) as (Haccount & _ & Hstashes & _).
  split; [exact Hsent|]. split; [exact Haccount|].
  exact (eq_trans Hstashes eq_refl).
Defined.

(** ** Further examples on the sample account *)

(** The stash of the protected account gives the code its tree gives. *)
Lemma getStashOtp_getLoginOtp_witness :
  Stash.otpKey (data Sample.protectedStash) = Login.otpKey (data Sample.protected) /\
  getStashOtp Sample.hotp 30 Sample.protectedStash
    {| Opts.otp := None; Opts.otpKey := None; Opts.now := None |}
    (Sample.world Sample.protected [Sample.protectedStash] Sample.accept)
  = Some "287082".
Proof.
  split; [reflexivity|].
  exact (eq_trans
           (getStashOtp_getLoginOtp Sample.hotp 30 Sample.protectedStash
              Sample.protected None
              (Sample.world Sample.protected [Sample.protectedStash] Sample.accept)
              eq_refl)
           eq_refl).
Defined.

(** The secret drawn for the plain account is not taken for a code. *)
Lemma enableOtp_fresh_secret_witness :
  accounts (Sample.world Sample.plain [Sample.plainStash] Sample.accept) !! "me"
  = Some {| login := Sample.plain; loginTree := Sample.plain |} /\
  exists secret,
    String.length secret = 16%nat /\
    enableOtp Sample.fixOtpKey Sample.wasChangeOtpPayload POST "me" 3600
      (Sample.world Sample.plain [Sample.plainStash] Sample.accept)
    = (applyKit POST "me" Sample.plain
         (enableOtpKit Sample.wasChangeOtpPayload Sample.plain secret 3600) ;;
       ret tt)%async
        (withDrawn 10 (Sample.world Sample.plain [Sample.plainStash] Sample.accept)) /\
    getStashOtp Sample.hotp 30 Sample.plainStash
      {| Opts.otp := Some secret; Opts.otpKey := None; Opts.now := None |}
      (Sample.world Sample.plain [Sample.plainStash] Sample.accept)
    = Some (totp Sample.hotp 30 secret None
              (Sample.world Sample.plain [Sample.plainStash] Sample.accept)).
Proof.
  split; [reflexivity|].
  destruct (enableOtp_fresh_secret Sample.hotp 30 Sample.fixOtpKey
              Sample.wasChangeOtpPayload POST "me" 3600
              (Sample.world Sample.plain [Sample.plainStash] Sample.accept)
              {| login := Sample.plain; loginTree := Sample.plain |}
              eq_refl eq_refl)
    as (secret & Hrun & Hlen & Hcode).
  exists secret. split; [exact Hlen|]. split; [exact Hrun|]. apply Hcode.
Defined.

(** Nobody's 2FA cannot be switched on or off. *)
Lemma unknown_account_rejected_witness :
  accounts (Sample.world Sample.plain [Sample.plainStash] Sample.accept) !! "nobody"
  = None /\
  enableOtp Sample.fixOtpKey Sample.wasChangeOtpPayload POST "nobody" 3600
    (Sample.world Sample.plain [Sample.plainStash] Sample.accept)
  = (Err TypeError, Sample.world Sample.plain [Sample.plainStash] Sample.accept) /\
  disableOtp POST "nobody"
    (Sample.world Sample.plain [Sample.plainStash] Sample.accept)
  = (Err TypeError, Sample.world Sample.plain [Sample.plainStash] Sample.accept) /\
  cancelOtpReset Sample.wasChangeOtpPayload POST "nobody"
    (Sample.world Sample.plain [Sample.plainStash] Sample.accept)
  = (Err TypeError, Sample.world Sample.plain [Sample.plainStash] Sample.accept).
Proof.
  split; [reflexivity|].
  exact (unknown_account_rejected Sample.fixOtpKey Sample.wasChangeOtpPayload POST
           "nobody" 3600
           (Sample.world Sample.plain [Sample.plainStash] Sample.accept) eq_refl).
Defined.

(** A reset request the service refuses, and one it answers with something
    that is not a reset payload. *)
Lemma resetOtp_failures_witness :
  fst (resetOtp Sample.hashUsername Sample.asOtpResetPayload "js test 0" "reset-token"
         (Sample.world Sample.protected [Sample.protectedStash] Sample.refuse))
  = Err (FetchError 500 JNull) /\
  fst (resetOtp Sample.hashUsername Sample.asOtpResetPayload "js test 0" "reset-token"
         (Sample.world Sample.protected [Sample.protectedStash] Sample.accept))
  = Err CleanerError /\
  length (sent (snd (resetOtp Sample.hashUsername Sample.asOtpResetPayload
                       "js test 0" "reset-token"
                       (Sample.world Sample.protected [Sample.protectedStash]
                                     Sample.accept))))
  = 1%nat.
Proof.
  pose proof (proj2 (resetOtp_failures Sample.hashUsername Sample.asOtpResetPayload
                       "js test 0" "reset-token"
                       (Sample.world Sample.protected [Sample.protectedStash]
                                     Sample.refuse))
                    ["h"; "a"; "s"; "h"]%byte _ eq_refl) as (Hrefused & _ & _).
  pose proof (proj2 (resetOtp_failures Sample.hashUsername Sample.asOtpResetPayload
                       "js test 0" "reset-token"
                       (Sample.world Sample.protected [Sample.protectedStash]
                                     Sample.accept))
                    ["h"; "a"; "s"; "h"]%byte _ eq_refl) as (_ & Hcleaner & Hworld).
  split; [exact (Hrefused 500%Z JNull eq_refl)|].
  split; [exact (Hcleaner JNull eq_refl eq_refl)|].
  exact (eq_trans (f_equal (fun w => length (sent w)) Hworld) eq_refl).
Defined.

(** On the plain account the two versions of [repairOtp] are one call. *)
Lemma repairOtp_versions_agree_witness :
  Sample.getStashById
    (Sample.world Sample.plain [Sample.plainStash] Sample.accept) "root"
  = Ok (Sample.plainStash, Sample.plainStash) /\
  Sample.getStash
    (Sample.world Sample.plain [Sample.plainStash] Sample.accept) "js test 0"
  = Ok Sample.plainStash /\
  repairOtp Sample.hotp 30 Sample.getStashById Sample.serverLogin
    "me" "JBSWY3DPEHPK3PXP"
    (Sample.world Sample.plain [Sample.plainStash] Sample.accept)
  = repairOtpTs Sample.hotp 30 Sample.getStash Sample.serverLogin
      "me" "JBSWY3DPEHPK3PXP"
      (Sample.world Sample.plain [Sample.plainStash] Sample.accept).
Proof.
  split; [reflexivity|]. split; [reflexivity|].
  exact (repairOtp_versions_agree Sample.hotp 30 Sample.getStashById
           Sample.getStash Sample.serverLogin "me" "JBSWY3DPEHPK3PXP"
           (Sample.world Sample.plain [Sample.plainStash] Sample.accept)
           {| login := Sample.plain; loginTree := Sample.plain |}
           Sample.password "js test 0" Sample.plainStash Sample.plainStash
           eq_refl eq_refl eq_refl eq_refl eq_refl eq_refl).
Defined.

(** With no stash on disk the TypeScript [repairOtp] stops at the lookup. *)
Lemma repairOtpTs_stops_early_witness :
  Sample.getStash (Sample.world Sample.plain [] Sample.accept) "js test 0"
  = Err (JsError "no stash") /\
  repairOtpTs Sample.hotp 30 Sample.getStash Sample.serverLogin
    "me" "JBSWY3DPEHPK3PXP" (Sample.world Sample.plain [] Sample.accept)
  = (Err (JsError "no stash"), Sample.world Sample.plain [] Sample.accept).
Proof.
  split; [reflexivity|].
  exact (proj1 (proj2 (repairOtpTs_stops_early Sample.hotp 30 Sample.getStash
                         Sample.serverLogin "me" "JBSWY3DPEHPK3PXP"
                         (Sample.world Sample.plain [] Sample.accept)
                         {| login := Sample.plain; loginTree := Sample.plain |}
                         eq_refl)
                      "js test 0" Sample.password eq_refl eq_refl)
               (JsError "no stash") eq_refl).
Defined.

(** The protected account and its stash, before and after the patches of
    [cancelOtpReset]. *)
Lemma otp_kits_keep_mirror_witness :
  otpMirrors (data Sample.protected) (data Sample.protectedStash) /\
  otpMirrors
    (LoginPatch.merge
       (Kit.login (cancelOtpResetKit Sample.wasChangeOtpPayload Sample.protected
                     3600 "JBSWY3DPEHPK3PXP"))
       (data Sample.protected))
    (StashPatch.merge
       (Kit.stash (cancelOtpResetKit Sample.wasChangeOtpPayload Sample.protected
                     3600 "JBSWY3DPEHPK3PXP"))
       (data Sample.protectedStash)).
Proof.
  assert (Hmirror : otpMirrors (data Sample.protected) (data Sample.protectedStash))
    by (repeat split).
  split; [exact Hmirror|].
  exact (proj2 (proj2 (otp_kits_keep_mirror Sample.wasChangeOtpPayload
                         Sample.protected "JBSWY3DPEHPK3PXP" 3600
                         (data Sample.protected) (data Sample.protectedStash)))
               Hmirror).
Defined.

(** ** The header text and its parse *)

Local Open Scope Z_scope.

Lemma indexOf_nil needle :
  Js.indexOf needle "" = if String.prefix needle "" then 0 else -1.
Proof. reflexivity. Qed.

Lemma indexOf_cons needle c s :
  Js.indexOf needle (String c s)
  = if String.prefix needle (String c s) then 0
    else if Js.indexOf needle s <? 0 then -1 else Js.indexOf needle s + 1.
Proof. reflexivity. Qed.

Lemma indexOf_lower_bound needle s : -1 <= Js.indexOf needle s.
Proof.
  induction s as [|c s IH].
  - rewrite indexOf_nil. destruct (String.prefix needle ""); lia.
  - rewrite indexOf_cons. destruct (String.prefix needle (String c s)); [lia|].
    destruct (Js.indexOf needle s <? 0); lia.
Qed.

(** A needle is missing from a string when it is not at its head and is
    missing from its tail. *)
Lemma lacks_cons needle c s :
  lacks needle (String c s) <->
  String.prefix needle (String c s) = false /\ lacks needle s.
Proof.
  unfold lacks. rewrite indexOf_cons.
  pose proof (indexOf_lower_bound needle s) as Hbound.
  destruct (String.prefix needle (String c s)).
  - split; [discriminate | intros [? _]; discriminate].
  - destruct (Js.indexOf needle s <? 0) eqn:Hneg.
    + apply Z.ltb_lt in Hneg. split; [split; [reflexivity | lia] | reflexivity].
    + apply Z.ltb_ge in Hneg. split; [lia | intros [_ ?]; lia].
Qed.

Lemma append_nil (b : string) : String.append "" b = b.
Proof. reflexivity. Qed.

Lemma append_cons x (a b : string) :
  String.append (String x a) b = String x (String.append a b).
Proof. reflexivity. Qed.

Lemma append_assoc (a b c : string) :
  String.append (String.append a b) c = String.append a (String.append b c).
Proof.
  induction a as [|x a IH]; [reflexivity|]. now rewrite !append_cons, IH.
Qed.

Lemma length_append (a b : string) :
  String.length (String.append a b) = (String.length a + String.length b)%nat.
Proof.
  induction a as [|x a IH]; [reflexivity|]. rewrite append_cons. simpl.
  now rewrite IH.
Qed.

(** Splitting a piece without a line end, alone or before a line end. *)
Lemma splitCrlf_piece piece :
  lacks crlf piece -> Js.splitCrlf piece = [piece].
Proof.
  induction piece as [|c piece IH]; [reflexivity|].
  intros [Hhead Htail]%lacks_cons. specialize (IH Htail).
  change (Js.splitCrlf (String c piece))
    with (match c, piece with
          | "013"%char, String "010"%char rest => EmptyString :: Js.splitCrlf rest
          | _, _ => match Js.splitCrlf piece with
                    | first :: others => String c first :: others
                    | [] => [String c EmptyString]
                    end
          end).
  rewrite IH.
  destruct c as [[] [] [] [] [] [] [] []]; try reflexivity.
  destruct piece as [|d piece]; [reflexivity|].
  destruct d as [[] [] [] [] [] [] [] []]; try reflexivity.
  destruct piece; cbv in Hhead; discriminate Hhead.
Qed.

Lemma splitCrlf_line piece rest :
  lacks crlf piece ->
  Js.splitCrlf (piece ++ crlf ++ rest) = piece :: Js.splitCrlf rest.
Proof.
  induction piece as [|c piece IH]; [reflexivity|].
  intros [Hhead Htail]%lacks_cons. specialize (IH Htail).
  change (Js.splitCrlf (String c piece ++ crlf ++ rest))
    with (match c, (piece ++ crlf ++ rest)%string with
          | "013"%char, String "010"%char rest' =>
              EmptyString :: Js.splitCrlf rest'
          | _, _ => match Js.splitCrlf (piece ++ crlf ++ rest) with
                    | first :: others => String c first :: others
                    | [] => [String c EmptyString]
                    end
          end).
  rewrite IH.
  destruct c as [[] [] [] [] [] [] [] []]; try reflexivity.
  destruct piece as [|d piece]; [reflexivity|].
  destruct d as [[] [] [] [] [] [] [] []]; try reflexivity.
  destruct piece; cbv in Hhead; discriminate Hhead.
Qed.

Lemma append_nil_r (a : string) : String.append a "" = a.
Proof.
  induction a as [|x a IH]; [reflexivity|]. now rewrite append_cons, IH.
Qed.

Lemma prefix_nil (s : string) : String.prefix "" s = true.
Proof. now destruct s. Qed.

Lemma prefix_cons a (s1 : string) b (s2 : string) :
  String.prefix (String a s1) (String b s2)
  = if Ascii.ascii_dec a b then String.prefix s1 s2 else false.
Proof. reflexivity. Qed.

(** What follows a string does not bring a needle of two units to its head,
    unless it starts with the needle's second unit. *)
Lemma prefix_two_append x y c (a b : string) :
  String.prefix (String x (String y "")) (String c a) = false ->
  String.prefix (String y "") b = false ->
  String.prefix (String x (String y "")) (String c (a ++ b)) = false.
Proof.
  rewrite !prefix_cons. destruct (Ascii.ascii_dec x c); [|reflexivity].
  destruct a as [|d a].
  - intros _ Hb. now rewrite append_nil.
  - rewrite append_cons, !prefix_cons.
    destruct (Ascii.ascii_dec y d); [|reflexivity].
    now rewrite !prefix_nil.
Qed.

Lemma lacks_two_append x y (a b : string) :
  lacks (String x (String y "")) a ->
  lacks (String x (String y "")) b ->
  String.prefix (String y "") b = false ->
  lacks (String x (String y "")) (a ++ b).
Proof.
  intros Ha Hb Hhead. induction a as [|c a IH].
  - now rewrite append_nil.
  - apply lacks_cons in Ha as [Hprefix Ha]. rewrite append_cons.
    apply lacks_cons. split; [now apply prefix_two_append | now apply IH].
Qed.

(** The colon and space after a name that has none are the first of its
    line. *)
Lemma indexOf_separator name value :
  lacks ": " name ->
  Js.indexOf ": " (name ++ ": " ++ value) = Z.of_nat (String.length name).
Proof.
  induction name as [|c name IH]; intros Hname.
  - rewrite append_nil, !append_cons, append_nil, indexOf_cons, !prefix_cons.
    simpl. now rewrite prefix_nil.
  - apply lacks_cons in Hname as [Hprefix Hname]. specialize (IH Hname).
    rewrite append_cons, indexOf_cons, IH.
    rewrite (prefix_two_append _ _ _ _ _ Hprefix) by reflexivity.
    destruct (Z.ltb_spec (Z.of_nat (String.length name)) 0) as [Hneg|_]; [lia|].
    simpl String.length. lia.
Qed.

Lemma substring_all (s : string) : String.substring 0 (String.length s) s = s.
Proof. induction s as [|c s IH]; [reflexivity|]. simpl. now rewrite IH. Qed.

Lemma substring_head (a b : string) :
  String.substring 0 (String.length a) (a ++ b) = a.
Proof.
  induction a as [|c a IH].
  - rewrite append_nil. now destruct b.
  - rewrite append_cons. simpl. now rewrite IH.
Qed.

Lemma substring_tail (a b : string) :
  String.substring (String.length a) (String.length b) (a ++ b) = b.
Proof.
  induction a as [|c a IH].
  - rewrite append_nil. apply substring_all.
  - rewrite append_cons. simpl. exact IH.
Qed.

Lemma slice_head (a b : string) :
  Js.slice (a ++ b) 0 (Some (Z.of_nat (String.length a))) = a.
Proof.
  unfold Js.slice, Js.clampIndex. rewrite length_append. simpl default.
  destruct (Z.ltb_spec 0 0) as [?|_]; [lia|].
  destruct (Z.ltb_spec (Z.of_nat (String.length a)) 0) as [?|_]; [lia|].
  replace (Z.to_nat (Z.min 0 _)) with 0%nat by lia.
  replace (Z.to_nat (_ - _)) with (String.length a) by lia.
  apply substring_head.
Qed.

Lemma slice_tail (a b : string) :
  Js.slice (a ++ b) (Z.of_nat (String.length a)) None = b.
Proof.
  unfold Js.slice, Js.clampIndex. rewrite length_append. simpl default.
  destruct (Z.ltb_spec (Z.of_nat (String.length a)) 0) as [?|_]; [lia|].
  destruct (Z.ltb_spec (Z.of_nat (String.length a + String.length b)) 0)
    as [?|_]; [lia|].
  replace (Z.to_nat (Z.min (Z.of_nat (String.length a)) _))
    with (String.length a) by lia.
  replace (Z.to_nat (_ - _)) with (String.length b) by lia.
  apply substring_tail.
Qed.

(** One well-formed line: the name in lower case is set to the value. *)
Lemma extractHeader_line out name value :
  lacks ": " name ->
  extractHeader out (name ++ ": " ++ value)
  = Js.setProperty (Js.toLowerCase name) value out.
Proof.
  intros Hname. unfold extractHeader. rewrite (indexOf_separator _ _ Hname).
  destruct (Z.ltb_spec (Z.of_nat (String.length name)) 0) as [?|_]; [lia|].
  rewrite slice_head.
  replace (Z.of_nat (String.length name) + 2)
    with (Z.of_nat (String.length (name ++ ": "))) by (rewrite length_append; simpl; lia).
  rewrite <- (append_assoc name ": " value), slice_tail. reflexivity.
Qed.

(** A line without colon and space is skipped. *)
Lemma extractHeader_skip out pair : lacks ": " pair -> extractHeader out pair = out.
Proof. intros Hpair. unfold extractHeader. now rewrite Hpair. Qed.

Lemma lacks_crlf_line header :
  wellFormedHeader header -> lacks crlf (fst header ++ ": " ++ snd header).
Proof.
  intros (_ & Hname & Hvalue). apply lacks_two_append; [exact Hname| |reflexivity].
  rewrite !append_cons, append_nil.
  apply lacks_cons. split; [reflexivity|].
  apply lacks_cons. split; [|exact Hvalue].
  destruct (snd header); reflexivity.
Qed.

(** The lines of a header text, and the piece after its last line end. *)
Lemma splitCrlf_headerText headers rest :
  Forall wellFormedHeader headers ->
  Js.splitCrlf (headerText headers ++ rest)
  = (map (fun header => (fst header ++ ": " ++ snd header)%string) headers
       ++ Js.splitCrlf rest)%list.
Proof.
  induction 1 as [|header headers Hheader _ IH]; [reflexivity|].
  simpl headerText. rewrite (append_assoc (headerLine header)).
  unfold headerLine. rewrite (append_assoc _ crlf).
  rewrite (splitCrlf_line _ _ (lacks_crlf_line _ Hheader)), IH. reflexivity.
Qed.

(** Parsing line by line, against storing header by header. *)
Lemma fold_extractHeader headers out :
  Forall wellFormedHeader headers ->
  fold_left extractHeader
    (map (fun header => (fst header ++ ": " ++ snd header)%string) headers) out
  = fold_left storeHeader headers out.
Proof.
  intros Hall. revert out.
  induction Hall as [|header headers (Hname & _) _ IH]; intros out; [reflexivity|].
  simpl. now rewrite (extractHeader_line _ _ _ Hname), IH.
Qed.

Lemma lookup_setProperty key value out name :
  Js.setProperty key value out !! name
  = if String.eqb key "__proto__" then out !! name
    else if String.eqb key name then Some value else out !! name.
Proof.
  unfold Js.setProperty. destruct (String.eqb key "__proto__"); [reflexivity|].
  destruct (String.eqb_spec key name) as [->|Hne].
  - apply lookup_insert_eq.
  - now apply lookup_insert_ne.
Qed.

Lemma lookup_storeHeaders headers out name :
  fold_left storeHeader headers out !! name
  = if String.eqb name "__proto__" then out !! name
    else match lastHeader name headers with
         | Some value => Some value
         | None => out !! name
         end.
Proof.
  revert out. induction headers as [|[key value] headers IH]; intros out.
  - simpl. now destruct (String.eqb name "__proto__").
  - simpl fold_left. rewrite IH. simpl lastHeader.
    unfold storeHeader. simpl fst. simpl snd. rewrite lookup_setProperty.
    destruct (String.eqb_spec name "__proto__") as [Hname|Hname].
    + destruct (String.eqb_spec (Js.toLowerCase key) "__proto__") as [|Hne];
        [reflexivity|].
      destruct (String.eqb_spec (Js.toLowerCase key) name); [congruence|reflexivity].
    + destruct (lastHeader name headers); [reflexivity|].
      destruct (String.eqb_spec (Js.toLowerCase key) "__proto__") as [Hkey|_].
      * destruct (String.eqb_spec (Js.toLowerCase key) name);
          [congruence|reflexivity].
      * now destruct (String.eqb (Js.toLowerCase key) name).
Qed.

(** X10.  Parsing the header text of a list of well-formed headers gives,
    under every name, the value of the last header of that name, names
    compared in lower case: a later header replaces an earlier one, a name
    that is not in lower case is never a key, and neither is [__proto__],
    which an assignment to an object literal does not create. *)
Theorem extractHeaders_headerText headers name :
  Forall wellFormedHeader headers ->
  extractHeaders (headerText headers) !! name
  = if String.eqb name "__proto__" then None else lastHeader name headers.
Proof.
  intros Hall. unfold extractHeaders.
  rewrite <- (append_nil_r (headerText headers)).
  rewrite (splitCrlf_headerText _ _ Hall), fold_left_app.
  rewrite (fold_extractHeader _ _ Hall). simpl.
  rewrite extractHeader_skip by reflexivity.
  rewrite lookup_storeHeaders, lookup_empty.
  destruct (String.eqb name "__proto__"); [reflexivity|].
  now destruct (lastHeader name headers).
Qed.

(** X11.  A line that holds no colon followed by a space, a status line or
    an empty line for one, is passed over: the headers before and after it
    are parsed as if it were not there. *)
Theorem extractHeaders_skips_line before line after :
  Forall wellFormedHeader before ->
  Forall wellFormedHeader after ->
  lacks ": " line ->
  lacks crlf line ->
  extractHeaders (headerText before ++ line ++ crlf ++ headerText after)
  = extractHeaders (headerText (before ++ after)%list).
Proof.
  intros Hbefore Hafter Hline Hend. unfold extractHeaders.
  assert (Hall : Forall wellFormedHeader (before ++ after)%list)
    by (apply Forall_app; now split).
  rewrite <- (append_nil_r (headerText (before ++ after)%list)).
  rewrite (splitCrlf_headerText _ _ Hall), (splitCrlf_headerText _ _ Hbefore).
  rewrite (splitCrlf_line _ _ Hend).
  rewrite <- (append_nil_r (headerText after)) at 1.
  rewrite (splitCrlf_headerText _ _ Hafter).
  rewrite map_app, !fold_left_app. simpl.
  now rewrite (extractHeader_skip _ _ Hline), fold_left_app.
Qed.

Lemma lowerUnit_twice c : Js.lowerUnit (Js.lowerUnit c) = Js.lowerUnit c.
Proof. destruct c as [[] [] [] [] [] [] [] []]; reflexivity. Qed.

Lemma toLowerCase_twice s : Js.toLowerCase (Js.toLowerCase s) = Js.toLowerCase s.
Proof.
  induction s as [|c s IH]; [reflexivity|]. simpl. now rewrite lowerUnit_twice, IH.
Qed.

(** X12.  Whatever the header text, the keys of the parsed headers are in
    lower case, and [__proto__] is not among them. *)
Theorem extractHeaders_keys headers name value :
  extractHeaders headers !! name = Some value ->
  Js.toLowerCase name = name /\ name <> "__proto__".
Proof.
  unfold extractHeaders.
  assert (Hfold : forall pairs (out : gmap string string),
             (forall key v, out !! key = Some v ->
                            Js.toLowerCase key = key /\ key <> "__proto__") ->
             forall key v, fold_left extractHeader pairs out !! key = Some v ->
                           Js.toLowerCase key = key /\ key <> "__proto__").
  { induction pairs as [|pair pairs IH]; intros out Hout; [exact Hout|].
    simpl. apply IH. intros key v. unfold extractHeader.
    destruct (Js.indexOf ": " pair <? 0); [apply Hout|].
    rewrite lookup_setProperty.
    destruct (String.eqb_spec (Js.toLowerCase (Js.slice pair 0 (Some (Js.indexOf ": " pair))))
                "__proto__") as [|Hproto]; [apply Hout|].
    destruct (String.eqb_spec (Js.toLowerCase (Js.slice pair 0 (Some (Js.indexOf ": " pair))))
                key) as [<-|_]; [|apply Hout].
    intros _. split; [apply toLowerCase_twice | exact Hproto]. }
  apply Hfold. intros key v. now rewrite lookup_empty.
Qed.

(** Three headers, two of one name: the later value is the one kept, colon
    and space in it included. *)
Lemma extractHeaders_headerText_witness :
  Forall wellFormedHeader
    [("Content-Type", "text/plain"); ("X-Rate", "1");
     ("content-type", "application/json: v2")] /\
  extractHeaders
    (headerText [("Content-Type", "text/plain"); ("X-Rate", "1");
                 ("content-type", "application/json: v2")])
    !! "content-type"
  = Some "application/json: v2" /\
  extractHeaders
    (headerText [("Content-Type", "text/plain"); ("X-Rate", "1");
                 ("content-type", "application/json: v2")])
    !! "Content-Type"
  = None.
Proof.
  assert (Hall : Forall wellFormedHeader
                   [("Content-Type", "text/plain"); ("X-Rate", "1");
                    ("content-type", "application/json: v2")])
    by (repeat constructor).
  split; [exact Hall|].
  split.
  - exact (eq_trans (extractHeaders_headerText _ "content-type" Hall) eq_refl).
  - exact (eq_trans (extractHeaders_headerText _ "Content-Type" Hall) eq_refl).
Defined.

(** A status line between two headers. *)
Lemma extractHeaders_skips_line_witness :
  lacks ": " "HTTP/1.1 200 OK" /\
  lacks crlf "HTTP/1.1 200 OK" /\
  extractHeaders
    (headerText [("Date", "today")] ++ "HTTP/1.1 200 OK" ++ crlf
       ++ headerText [("ETag", "33a6")])
  = extractHeaders (headerText [("Date", "today"); ("ETag", "33a6")]).
Proof.
  split; [reflexivity|]. split; [reflexivity|].
  apply (extractHeaders_skips_line [("Date", "today")] "HTTP/1.1 200 OK"
           [("ETag", "33a6")]);
    [repeat constructor | repeat constructor | reflexivity | reflexivity].
Defined.

(** One header without a line end. *)
Lemma extractHeaders_keys_witness :
  extractHeaders "Content-Type: text/plain" !! "content-type" = Some "text/plain" /\
  Js.toLowerCase "content-type" = "content-type" /\
  "content-type" <> "__proto__".
Proof.
  split; [reflexivity|].
  exact (extractHeaders_keys "Content-Type: text/plain" "content-type" "text/plain"
           eq_refl).
Defined.
